(** * Geometric line reconstruction for Transkribus layout files

    A shallow embedding of the geometric core of
    [make_training_data.py] (vertical grid of 60, fixed half band of 25,
    overlap removal) and of its sibling script (vertical grid of 100,
    height-derived band), followed by the properties of that core.

    Conventions of the embedding.
    - Python [int] is [Z].  A Python number that may be an [int] or a
      [float] (the result of [statistics.mean]) is an exact rational [Q];
      the rounding of such a value to a double is not modelled.
    - [math.sqrt n] is kept exact as its radicand (type [root]) and
      compared through it.  Both call sites of [get_baseline_length] pass
      the same y twice, so the value is the square root of a perfect square
      of an integer; the conversion of that integer to a double is taken to
      succeed.
    - Python [str] is [string]; only ASCII text is modelled.  The
      transcript alone, which is Tibetan, is a list of code points
      ([text]).
    - A raised exception is the [Raise] branch of [result].
    - A [dict] is an association list in insertion order; its keys are
      distinct, which properties of dictionaries assume with [NoDup]. *)

From Stdlib Require Import ZArith QArith Qround List String Ascii Bool Lia Sorted Permutation.
From Stdlib Require Import DecimalString DecimalZ DecimalPos.
Import ListNotations.

Open Scope Z_scope.

(** ** A small model of the Python runtime *)

Module Py.

(** The built-in exceptions the code can raise. *)
Inductive exn : Type :=
| IndexError
| ValueError
| KeyError
| ZeroDivisionError
| StatisticsError
| UnboundLocalError.

Inductive result (A : Type) : Type :=
| Ok (a : A)
| Raise (e : exn).
Arguments Ok {A} a.
Arguments Raise {A} e.

Definition bind {A B : Type} (m : result A) (k : A -> result B) : result B :=
  match m with
  | Ok a => k a
  | Raise e => Raise e
  end.

(** [for x in l: acc = body acc x], stopping at the first exception. *)
Fixpoint for_each {A S : Type} (body : S -> A -> result S) (l : list A) (s : S)
  : result S :=
  match l with
  | [] => Ok s
  | x :: l' => bind (body s x) (for_each body l')
  end.

(** [enumerate(l)] *)
Fixpoint enumerate_from {A : Type} (i : nat) (l : list A) : list (nat * A) :=
  match l with
  | [] => []
  | x :: l' => (i, x) :: enumerate_from (S i) l'
  end.
Definition enumerate {A : Type} (l : list A) : list (nat * A) := enumerate_from 0 l.

(** [l[i]] for a non-negative index *)
Definition item {A : Type} (l : list A) (i : nat) : result A :=
  match nth_error l i with
  | Some x => Ok x
  | None => Raise IndexError
  end.

(** [l[-1]] *)
Definition last_item {A : Type} (l : list A) : result A :=
  match l with
  | [] => Raise IndexError
  | x :: l' => Ok (last l' x)
  end.

(** *** Strings *)

(** [c.isspace()] on ASCII: tab, LF, VT, FF, CR, FS, GS, RS, US, space *)
Definition is_space (c : ascii) : bool :=
  let n := nat_of_ascii c in
  ((9 <=? n) && (n <=? 13) || (28 <=? n) && (n <=? 32))%nat.

(** [s.split(sep)] for a one-character separator *)
Fixpoint split_on (sep : ascii) (s : string) : list string :=
  match s with
  | EmptyString => [EmptyString]
  | String c s' =>
      if Ascii.eqb c sep then EmptyString :: split_on sep s'
      else match split_on sep s' with
           | w :: ws => String c w :: ws
           | [] => [String c EmptyString]
           end
  end.

(** [s.split()]: split on runs of whitespace, no empty words *)
Fixpoint split (s : string) : list string :=
  match s with
  | EmptyString => []
  | String c s' =>
      if is_space c then split s'
      else match s' with
           | EmptyString => [String c EmptyString]
           | String c' _ =>
               if is_space c' then String c EmptyString :: split s'
               else match split s' with
                    | w :: ws => String c w :: ws
                    | [] => [String c EmptyString]
                    end
           end
  end.

Fixpoint lstrip (s : string) : string :=
  match s with
  | EmptyString => EmptyString
  | String c s' => if is_space c then lstrip s' else s
  end.

Fixpoint rstrip (s : string) : string :=
  match s with
  | EmptyString => EmptyString
  | String c s' =>
      match rstrip s' with
      | EmptyString => if is_space c then EmptyString else String c EmptyString
      | r => String c r
      end
  end.

Definition strip (s : string) : string := rstrip (lstrip s).

(** *** [int(s)] and [str(n)] *)

Definition digit_of (c : ascii) : option Z :=
  let n := nat_of_ascii c in
  if ((48 <=? n) && (n <=? 57))%nat then Some (Z.of_nat n - 48) else None.

(** Digits with single underscores allowed between two digits.
    [after_digit] tells whether the previous character was a digit. *)
Fixpoint int_digits (s : string) (acc : Z) (after_digit : bool) : option Z :=
  match s with
  | EmptyString => if after_digit then Some acc else None
  | String c s' =>
      if Ascii.eqb c "_" then
        if after_digit then int_digits s' acc false else None
      else match digit_of c with
           | Some d => int_digits s' (10 * acc + d) true
           | None => None
           end
  end.

(** [int(s)]: surrounding whitespace, an optional sign, decimal digits *)
Definition int (s : string) : result Z :=
  let parsed :=
    match strip s with
    | String "-" body => option_map Z.opp (int_digits body 0 false)
    | String "+" body => int_digits body 0 false
    | body => int_digits body 0 false
    end in
  match parsed with
  | Some n => Ok n
  | None => Raise ValueError
  end.

(** [str(n)], also what [f"{n}"] prints for an [int] *)
Definition str (n : Z) : string := NilZero.string_of_int (Z.to_int n).

(** *** Numbers *)

(** [int(q)] for a number [q]: truncation towards zero *)
Definition trunc (q : Q) : Z := Z.quot (Qnum q) (Zpos (Qden q)).

(** [q // b] and [q % b] for a positive integer [b] *)
Definition floordiv (q : Q) (b : Z) : Z := Qfloor (q / inject_Z b).
Definition modulo (q : Q) (b : Z) : Q := q - inject_Z (b * floordiv q b).

Definition Qltb (x y : Q) : bool := negb (Qle_bool y x).

(** [statistics.mean(ys)] of a list of [int] *)
Definition mean (ys : list Z) : result Q :=
  match ys with
  | [] => Raise StatisticsError
  | _ => Ok (Qmake (fold_left Z.add ys 0) (Pos.of_nat (List.length ys)))
  end.

(** [math.sqrt(n)], exact: the value is the square root of [radicand]. *)
Record root : Type := Sqrt { radicand : Q }.

(** [r > k] and [r1 > r2], [r1 < r2] on square roots *)
Definition root_gt_int (r : root) (k : Z) : bool :=
  (k <? 0) || Qltb (inject_Z (k * k)) (radicand r).
Definition root_ltb (r1 r2 : root) : bool := Qltb (radicand r1) (radicand r2).

(** [min(l, key=key)] and [max(l, key=key)]: the first extremal item *)
Fixpoint min_from {A K : Type} (ltb : K -> K -> bool) (key : A -> K)
         (best : A) (l : list A) : A :=
  match l with
  | [] => best
  | x :: l' => min_from ltb key (if ltb (key x) (key best) then x else best) l'
  end.

Fixpoint max_from {A K : Type} (ltb : K -> K -> bool) (key : A -> K)
         (best : A) (l : list A) : A :=
  match l with
  | [] => best
  | x :: l' => max_from ltb key (if ltb (key best) (key x) then x else best) l'
  end.

Definition min_by {A K : Type} (ltb : K -> K -> bool) (key : A -> K) (l : list A)
  : result A :=
  match l with
  | [] => Raise ValueError
  | x :: l' => Ok (min_from ltb key x l')
  end.

Definition max_by {A K : Type} (ltb : K -> K -> bool) (key : A -> K) (l : list A)
  : result A :=
  match l with
  | [] => Raise ValueError
  | x :: l' => Ok (max_from ltb key x l')
  end.

(** *** Dictionaries, in insertion order *)

Definition dict (V : Type) : Type := list (string * V).

(** [d[k]] *)
Fixpoint getitem {V : Type} (d : dict V) (k : string) : result V :=
  match d with
  | [] => Raise KeyError
  | (k', v) :: d' => if String.eqb k' k then Ok v else getitem d' k
  end.

(** [del d[k]] *)
Fixpoint delitem {V : Type} (d : dict V) (k : string) : result (dict V) :=
  match d with
  | [] => Raise KeyError
  | (k', v) :: d' =>
      if String.eqb k' k then Ok d'
      else bind (delitem d' k) (fun r => Ok ((k', v) :: r))
  end.

(** [d[k] = v]: an existing key keeps its place, a new one goes last *)
Fixpoint setitem {V : Type} (d : dict V) (k : string) (v : V) : dict V :=
  match d with
  | [] => [(k, v)]
  | (k', v') :: d' =>
      if String.eqb k' k then (k', v) :: d' else (k', v') :: setitem d' k v
  end.

(** [d.update(e)] *)
Definition update {V : Type} (d e : dict V) : dict V :=
  fold_left (fun acc kv => setitem acc (fst kv) (snd kv)) e d.

(** [dict(items)] for a list of pairs *)
Definition dict_of_items {V : Type} (items : list (string * V)) : dict V :=
  update [] items.

(** [sorted(l, key=key)]: ascending and stable, comparing keys with [<] *)
Fixpoint insert_by {A K : Type} (ltb : K -> K -> bool) (key : A -> K)
         (x : A) (l : list A) : list A :=
  match l with
  | [] => [x]
  | y :: l' => if ltb (key y) (key x) then y :: insert_by ltb key x l' else x :: l
  end.

Definition sorted_by {A K : Type} (ltb : K -> K -> bool) (key : A -> K) (l : list A)
  : list A :=
  fold_right (insert_by ltb key) [] l.

(** [res[k].append(x)] on a [defaultdict(list)] keyed by an [int] *)
Fixpoint group_append {A : Type} (res : list (Z * list A)) (k : Z) (x : A)
  : list (Z * list A) :=
  match res with
  | [] => [(k, [x])]
  | (k', xs) :: res' =>
      if k' =? k then (k', xs ++ [x]) :: res' else (k', xs) :: group_append res' k x
  end.

(** *** Unicode text *)

(** A transcript is Tibetan text: a [str] as the sequence of its code
    points. *)
Definition text : Type := list N.

(** The line boundaries of [str.splitlines]: LF, VT, FF, CR, FS, GS, RS,
    NEL, LS and PS. *)
Definition is_linebreak (c : N) : bool :=
  ((10 <=? c) && (c <=? 13) || (28 <=? c) && (c <=? 30)
   || (c =? 133) || (c =? 8232) || (c =? 8233))%N.

(** [s.splitlines()]: CR LF is one boundary, and a boundary that ends the
    text opens no further line. *)
Fixpoint splitlines (s : text) : list text :=
  match s with
  | [] => []
  | c :: s' =>
      if is_linebreak c then
        [] :: match s' with
              | d :: s'' =>
                  if ((c =? 13) && (d =? 10))%N then splitlines s'' else splitlines s'
              | [] => []
              end
      else match splitlines s' with
           | w :: ws => (c :: w) :: ws
           | [] => [[c]]
           end
  end.

(** [s.split(sep)] for the two-character separator [a b]: cut at the
    occurrences met from the left, which do not overlap. *)
Fixpoint split_on2 (a b : N) (s : text) : list text :=
  match s with
  | [] => [[]]
  | c :: s' =>
      match s' with
      | d :: s'' =>
          if ((c =? a) && (d =? b))%N then [] :: split_on2 a b s''
          else match split_on2 a b s' with
               | w :: ws => (c :: w) :: ws
               | [] => [[c]]
               end
      | [] => [[c]]
      end
  end.

(** [sep.join(l)] *)
Fixpoint join (sep : text) (l : list text) : text :=
  match l with
  | [] => []
  | x :: l' =>
      match l' with
      | [] => x
      | _ :: _ => x ++ sep ++ join sep l'
      end
  end.

End Py.

Import Py.

Notation "x <- m ;; k" := (bind m (fun x => k))
  (at level 61, m at next level, right associativity).

(** ** Functions shared by both scripts *)

(** The parsed page: [soup.find_all("TextRegion")], each region with the
    [points] attribute of its [Coords] and its [TextLine] elements, each
    line with the [points] of its [Coords] and of its [Baseline]. *)
Record TextLine : Type := mkTextLine {
  Coords_points : string;
  Baseline_points : string
}.

Record TextRegion : Type := mkTextRegion {
  region_points : string;
  text_lines : list TextLine
}.

Definition get_coord (point : string) : list string := split_on "," point.

Definition get_baseline_length (x1 y1 x2 y2 : Q) : root :=
  Sqrt ((x1 - x2) ^ 2 + (y1 - y2) ^ 2)%Q.

(** The loop shared by [get_y_avg] and [get_line_indicator]:
    [ys.append(int(get_coord(coord)[1]))] for each [coord]. *)
Definition collect_ys (coords : list string) : result (list Z) :=
  for_each (fun ys coord =>
              let point := get_coord coord in
              p1 <- item point 1 ;;
              y <- Py.int p1 ;;
              Ok (ys ++ [y]))
           coords [].

Definition get_y_avg (coords : list string) : result Q :=
  ys <- collect_ys coords ;;
  mean ys.

Definition get_poly_coord (poly : list string) : result (list (Z * Z)) :=
  for_each (fun res point =>
              let point := split_on "," point in
              p0 <- item point 0 ;;
              x <- Py.int p0 ;;
              p1 <- item point 1 ;;
              y <- Py.int p1 ;;
              Ok (res ++ [(x, y)]))
           poly [].

(** [a // b] on [int] *)
Definition int_floordiv (a b : Z) : result Z :=
  if b =? 0 then Raise ZeroDivisionError else Ok (a / b).

Definition get_avg_height (poly : list (Z * Z)) : result Z :=
  let num_points := List.length poly in
  let num_pairs := (num_points / 2)%nat in
  sum_height <-
    for_each (fun sum_height i =>
                a <- item poly i ;;
                b <- item poly (num_points - 1 - i)%nat ;;
                let dif := snd a - snd b in
                Ok (sum_height + dif))
             (seq 0 num_pairs) 0 ;;
  int_floordiv sum_height (Z.of_nat num_pairs).

(** [l.index(v)] *)
Fixpoint index_of (v : nat) (l : list nat) : result nat :=
  match l with
  | [] => Raise ValueError
  | x :: l' => if Nat.eqb x v then Ok 0%nat
               else i <- index_of v l' ;; Ok (S i)
  end.

(** [max(l)] on a list of [int] *)
Definition max_of (l : list nat) : result nat :=
  max_by Nat.ltb (fun x => x) l.

Definition get_main_region (regions : list TextRegion) : result nat :=
  let len_lines := map (fun region => List.length (text_lines region)) regions in
  m <- max_of len_lines ;;
  index_of m len_lines.

(** A simplified line: the two attribute strings written to the page. *)
Record Line : Type := mkLine {
  bl_points : string;
  poly_coord : string
}.

(** [f"{x},{y}"] *)
Definition xy (x y : Z) : string := (str x ++ "," ++ str y)%string.

(** ** make_training_data.py *)

Module MakeTrainingData.

Definition get_line_indicator (coords : list string) : result Z :=
  ys <- collect_ys coords ;;
  y_mean <- mean ys ;;
  if Qltb (inject_Z 30) (modulo y_mean 60)
  then Ok ((floordiv y_mean 60 + 1) * 60)
  else Ok (floordiv y_mean 60 * 60).

Record box : Type := mkbox {
  bl_start_x : Z;
  bl_start_y : Z;
  bl_end_x : Z;
  bl_end_y : Z;
  bl_length : root;
  avg_height : Z;
  line_indicator : Z;
  left_border : Z;
  right_border : Z
}.

(** The body of the [for i, line in enumerate(lines)] loop. *)
Definition create_box_step (left_border right_border : string)
           (boxes : dict box) (il : nat * TextLine) : result (dict box) :=
  let (i, line) := il in
  poly_coords <- get_poly_coord (split (Coords_points line)) ;;
  avg_height <- get_avg_height poly_coords ;;
  let baseline_coords := split (Baseline_points line) in
  first <- item baseline_coords 0 ;;
  let start_base_point := get_coord first in
  final <- last_item baseline_coords ;;
  let end_base_point := get_coord final in
  base_y_avg <- get_y_avg baseline_coords ;;
  line_indicator <- get_line_indicator baseline_coords ;;
  sx <- item start_base_point 0 ;;
  bl_start_x <- Py.int sx ;;
  ex <- item end_base_point 0 ;;
  bl_end_x <- Py.int ex ;;
  let bl_length :=
    get_baseline_length (inject_Z bl_start_x) base_y_avg
                        (inject_Z bl_end_x) base_y_avg in
  left <- Py.int left_border ;;
  right <- Py.int right_border ;;
  Ok (boxes ++ [(("box" ++ str (Z.of_nat i))%string,
                 {| bl_start_x := bl_start_x;
                    bl_start_y := trunc base_y_avg;
                    bl_end_x := bl_end_x;
                    bl_end_y := trunc base_y_avg;
                    bl_length := bl_length;
                    avg_height := avg_height;
                    line_indicator := line_indicator;
                    left_border := left;
                    right_border := right |})]).

Definition create_box (regions : list TextRegion) : result (dict box) :=
  match get_main_region regions with
  | Raise _ => Ok []
  | Ok main_region =>
      region <- item regions main_region ;;
      let lines := text_lines region in
      let region_borders := split (region_points region) in
      b0 <- item region_borders 0 ;;
      left_border <- item (get_coord b0) 0 ;;
      b3 <- item region_borders 3 ;;
      right_border <- item (get_coord b3) 0 ;;
      for_each (create_box_step left_border right_border) (enumerate lines) []
  end.

Definition line_simplification (sub_box : dict box) (line_num : nat)
  : result (option (string * Line)) :=
  first_start <- min_by Z.ltb (fun x => bl_start_x (snd x)) sub_box ;;
  let start := bl_start_x (snd first_start) in
  last_end <- max_by Z.ltb (fun x => bl_end_x (snd x)) sub_box ;;
  let end_ := bl_end_x (snd last_end) in
  let left_edge := left_border (snd first_start) in
  let right_edge := right_border (snd last_end) in
  longest_baseline <- max_by root_ltb (fun x => bl_length (snd x)) sub_box ;;
  let height := avg_height (snd longest_baseline) in
  let y_avg := bl_start_y (snd longest_baseline) in
  let line_indicator := line_indicator (snd longest_baseline) in
  let poly_x1 := left_edge in
  let poly_y1 := y_avg - 25 in      (* int(y_avg - 25), already an int *)
  let poly_x2 := right_edge in
  let poly_y2 := y_avg - 25 in
  let poly_x3 := right_edge in
  let poly_y3 := y_avg + 25 in
  let poly_x4 := left_edge in
  let poly_y4 := y_avg + 25 in
  let baseline_length :=
    get_baseline_length (inject_Z start) (inject_Z y_avg)
                        (inject_Z end_) (inject_Z y_avg) in
  if root_gt_int baseline_length 400 && negb (line_indicator =? 0)
  then Ok (Some (("l" ++ str (Z.of_nat line_num))%string,
                 {| bl_points := (xy left_edge y_avg ++ " " ++ xy right_edge y_avg)%string;
                    poly_coord := (xy poly_x4 poly_y4 ++ " " ++ xy poly_x3 poly_y3 ++ " "
                                   ++ xy poly_x2 poly_y2 ++ " " ++ xy poly_x1 poly_y1)%string |}))
  else Ok None.

Definition get_start_y (poly : string) : result string :=
  let coords := split_on " " poly in
  start_coords <- last_item coords ;;
  let start_x_y := split_on "," start_coords in
  last_item start_x_y.

(** The state of [rm_overlap]: the dictionary it was given (shared with
    the caller and mutated in place), the keys marked so far and the key
    of the previous iteration. *)
Record overlap_state : Type := mkState {
  sim_box : dict Line;
  rm_key : list string;
  prev_key : option string
}.

(** The body of the scanning loop, [i] and [(key, box)] from
    [enumerate(sim_box.items())]. *)
Definition scan_step (st : overlap_state) (it : nat * (string * Line))
  : result overlap_state :=
  let '(i, (key, box)) := it in
  if Nat.eqb i 0 then
    Ok {| sim_box := sim_box st; rm_key := rm_key st; prev_key := Some key |}
  else
    match prev_key st with
    | None => Raise UnboundLocalError
    | Some pk =>
        prev_box <- getitem (sim_box st) pk ;;
        prev_s <- get_start_y (poly_coord prev_box) ;;
        prev_y <- Py.int prev_s ;;
        cur_s <- get_start_y (poly_coord box) ;;
        cur_y <- Py.int cur_s ;;
        let rm_key' := if cur_y - prev_y <? 40 then rm_key st ++ [pk] else rm_key st in
        Ok {| sim_box := sim_box st; rm_key := rm_key'; prev_key := Some key |}
    end.

(** The body of the deleting loop, [del sim_box[key]]. *)
Definition delete_step (st : overlap_state) (key : string) : result overlap_state :=
  d <- delitem (sim_box st) key ;;
  Ok {| sim_box := d; rm_key := rm_key st; prev_key := prev_key st |}.

Definition scan (d : dict Line) : result overlap_state :=
  for_each scan_step (enumerate d) {| sim_box := d; rm_key := []; prev_key := None |}.

Definition rm_overlap (d : dict Line) : result (dict Line) :=
  st <- scan d ;;
  st' <- for_each delete_step (rm_key st) st ;;
  Ok (sim_box st').

Definition vertical_sort (boxes : dict box) : dict box :=
  let result := sorted_by Z.ltb (fun x => line_indicator (snd x)) boxes in
  dict_of_items result.

(** The loop [res[box["line_indicator"]].append(key)] that opens both
    [horizontal_sort] and [simplification]. *)
Definition group_keys (boxes : dict box) : list (Z * list string) :=
  fold_left (fun res kb => group_append res (line_indicator (snd kb)) (fst kb)) boxes [].

(** [{key: boxes[key] for key in re}] *)
Definition sub_box_of (boxes : dict box) (re : list string) : result (dict box) :=
  for_each (fun sub_box key =>
              b <- getitem boxes key ;;
              Ok (setitem sub_box key b))
           re [].

Definition horizontal_sort (boxes : dict box) : result (dict box) :=
  let res := group_keys boxes in
  for_each (fun sorted_box kre =>
              sub_box <- sub_box_of boxes (snd kre) ;;
              let sorted_sub_box :=
                dict_of_items (sorted_by Z.ltb (fun x => bl_start_x (snd x)) sub_box) in
              Ok (update sorted_box sorted_sub_box))
           res [].



(** [regions] is [soup.find_all("TextRegion")], as in [create_box]. *)
Definition get_region_coord (regions : list TextRegion) : result string :=
  main_region <- get_main_region regions ;;
  region <- item regions main_region ;;
  Ok (region_points region).

Definition get_transcript_list (t : text) : list text := split_on2 10 10 t.

Definition get_transcript (t : text) : list text :=
  fold_left (fun result line =>
               match line with
               | [] => result
               | _ :: _ => result ++ [line]
               end)
            (splitlines t) [].

End MakeTrainingData.

(** ** The sibling script (src/unnamed/part_000): grid of 100, band from the height *)

Module Preprocessing.

Definition get_line_indicator (coords : list string) : result Z :=
  ys <- collect_ys coords ;;
  y_mean <- mean ys ;;
  if Qltb (inject_Z 30) (modulo y_mean 100)
  then Ok ((floordiv y_mean 100 + 1) * 100)
  else Ok (floordiv y_mean 100 * 100).

Record box : Type := mkbox {
  bl_start_x : Z;
  bl_start_y : Z;
  bl_end_x : Z;
  bl_end_y : Z;
  bl_length : root;
  avg_height : Z;
  line_indicator : Z
}.

Definition line_simplification (sub_box : dict box) (line_num : nat)
  : result (option (string * Line)) :=
  first_start <- min_by Z.ltb (fun x => bl_start_x (snd x)) sub_box ;;
  let start := bl_start_x (snd first_start) in
  last_end <- max_by Z.ltb (fun x => bl_end_x (snd x)) sub_box ;;
  let end_ := bl_end_x (snd last_end) in
  longest_baseline <- max_by root_ltb (fun x => bl_length (snd x)) sub_box ;;
  let height := avg_height (snd longest_baseline) in
  let y_avg := bl_start_y (snd longest_baseline) in
  let line_indicator := line_indicator (snd longest_baseline) in
  let poly_x1 := start in
  let poly_y1 := trunc (inject_Z y_avg - inject_Z height * (5 # 4)) in
  let poly_x2 := end_ in
  let poly_y2 := trunc (inject_Z y_avg - inject_Z height * (5 # 4)) in
  let poly_x3 := end_ in
  let poly_y3 := y_avg + height / 2 in
  let poly_x4 := start in
  let poly_y4 := y_avg + height / 2 in
  let baseline_length :=
    get_baseline_length (inject_Z start) (inject_Z y_avg)
                        (inject_Z end_) (inject_Z y_avg) in
  if root_gt_int baseline_length 400 && negb (line_indicator =? 0)
  then Ok (Some (("l" ++ str (Z.of_nat line_num))%string,
                 {| bl_points := (xy start y_avg ++ " " ++ xy end_ y_avg)%string;
                    poly_coord := (xy poly_x4 poly_y4 ++ " " ++ xy poly_x3 poly_y3 ++ " "
                                   ++ xy poly_x2 poly_y2 ++ " " ++ xy poly_x1 poly_y1)%string |}))
  else Ok None.

(** The body of the [for i, line in enumerate(lines)] loop. *)
Definition create_box_step (boxes : dict box) (il : nat * TextLine) : result (dict box) :=
  let (i, line) := il in
  poly_coords <- get_poly_coord (split (Coords_points line)) ;;
  avg_height <- get_avg_height poly_coords ;;
  let baseline_coords := split (Baseline_points line) in
  first <- item baseline_coords 0 ;;
  let start_base_point := get_coord first in
  final <- last_item baseline_coords ;;
  let end_base_point := get_coord final in
  base_y_avg <- get_y_avg baseline_coords ;;
  line_indicator <- get_line_indicator baseline_coords ;;
  sx <- item start_base_point 0 ;;
  bl_start_x <- Py.int sx ;;
  ex <- item end_base_point 0 ;;
  bl_end_x <- Py.int ex ;;
  let bl_length :=
    get_baseline_length (inject_Z bl_start_x) base_y_avg
                        (inject_Z bl_end_x) base_y_avg in
  Ok (boxes ++ [(("box" ++ str (Z.of_nat i))%string,
                 {| bl_start_x := bl_start_x;
                    bl_start_y := trunc base_y_avg;
                    bl_end_x := bl_end_x;
                    bl_end_y := trunc base_y_avg;
                    bl_length := bl_length;
                    avg_height := avg_height;
                    line_indicator := line_indicator |})]).

Definition create_box (regions : list TextRegion) : result (dict box) :=
  main_region <- get_main_region regions ;;
  region <- item regions main_region ;;
  let lines := text_lines region in
  for_each create_box_step (enumerate lines) [].

End Preprocessing.

(** ** The quantisation rule, stated apart from the code *)

(** Round [y] on the grid of step [b]: up to the next grid line when the
    remainder exceeds [threshold], down otherwise. *)
Definition vertical_bucket_rule (threshold : Q) (b : Z) (y : Q) : Z :=
  if Qltb threshold (modulo y b)
  then (floordiv y b + 1) * b
  else floordiv y b * b.


(** The sum that [get_avg_height] accumulates: vertex [i] against vertex
    [n - 1 - i], for the first [n / 2] vertices. *)
Definition paired_differences (poly : list (Z * Z)) : Z :=
  let n := List.length poly in
  fold_left (fun acc i => acc + (snd (nth i poly (0, 0)) - snd (nth (n - 1 - i) poly (0, 0))))
            (seq 0 (n / 2)) 0.

(** Every character of [s] passes the test [p]. *)
Fixpoint all_chars (p : ascii -> bool) (s : string) : bool :=
  match s with
  | EmptyString => true
  | String c s' => p c && all_chars p s'
  end.

Definition is_digit (c : ascii) : bool :=
  match digit_of c with Some _ => true | None => false end.

(** The characters [str] can print. *)
Definition is_numeral_char (c : ascii) : bool := is_digit c || Ascii.eqb c "-".

Definition differs_from (sep : ascii) (c : ascii) : bool := negb (Ascii.eqb c sep).

(** The number a sequence of decimal digits denotes, continuing [acc]. *)
Fixpoint uint_value (d : Decimal.uint) (acc : Z) : Z :=
  match d with
  | Decimal.Nil => acc
  | Decimal.D0 d => uint_value d (10 * acc + 0)
  | Decimal.D1 d => uint_value d (10 * acc + 1)
  | Decimal.D2 d => uint_value d (10 * acc + 2)
  | Decimal.D3 d => uint_value d (10 * acc + 3)
  | Decimal.D4 d => uint_value d (10 * acc + 4)
  | Decimal.D5 d => uint_value d (10 * acc + 5)
  | Decimal.D6 d => uint_value d (10 * acc + 6)
  | Decimal.D7 d => uint_value d (10 * acc + 7)
  | Decimal.D8 d => uint_value d (10 * acc + 8)
  | Decimal.D9 d => uint_value d (10 * acc + 9)
  end.

(** [m] is the item [max(l, key=key)] selects: no item has a greater key
    and every item before [m] has a smaller one. *)
Definition first_greatest {A K : Type} (ltb : K -> K -> bool) (key : A -> K)
           (m : A) (l : list A) : Prop :=
  exists l1 l2, l = l1 ++ m :: l2 /\
                (forall x, In x l1 -> ltb (key x) (key m) = true) /\
                (forall x, In x l2 -> ltb (key m) (key x) = false).

(** [m] is the item [min(l, key=key)] selects. *)
Definition first_least {A K : Type} (ltb : K -> K -> bool) (key : A -> K)
           (m : A) (l : list A) : Prop :=
  first_greatest (fun a b => ltb b a) key m l.

(** The y of the last listed polygon vertex of a line, as [rm_overlap]
    reads it: [int(get_start_y(box["poly_coord"]))]. *)
Definition reference_y (line : Line) : result Z :=
  s <- MakeTrainingData.get_start_y (poly_coord line) ;;
  Py.int s.

(** For each position of a list of reference ys, whether the next y is
    less than 40 further down; never for the last position. *)
Fixpoint close_to_next (ys : list Z) : list bool :=
  match ys with
  | [] => []
  | y :: rest =>
      match rest with
      | [] => [false]
      | y' :: _ => (y' - y <? 40) :: close_to_next rest
      end
  end.

(** The items of [l] whose flag is [want]. *)
Fixpoint keep_where {A : Type} (want : bool) (flags : list bool) (l : list A) : list A :=
  match flags, l with
  | f :: flags', x :: l' =>
      if Bool.eqb f want then x :: keep_where want flags' l'
      else keep_where want flags' l'
  | _, _ => []
  end.


(** The distinct values of [l], in the order of their first occurrence. *)
Fixpoint first_seen (l : list Z) : list Z :=
  match l with
  | [] => []
  | a :: l' => a :: filter (fun b => negb (b =? a)) (first_seen l')
  end.

(** The entries of a dictionary whose value has the indicator [v]. *)
Definition cluster {V : Type} (li : V -> Z) (v : Z) (boxes : dict V) : dict V :=
  filter (fun kv => li (snd kv) =? v) boxes.

(** The line indicators of a dictionary of boxes, in the order first seen:
    the keys of the grouping that [horizontal_sort] and [simplification]
    build. *)
Definition indicators (boxes : dict MakeTrainingData.box) : list Z :=
  first_seen (map (fun kb => MakeTrainingData.line_indicator (snd kb)) boxes).

(** The boxes of one indicator, ordered by the start of their baseline. *)
Definition ordered_cluster (boxes : dict MakeTrainingData.box) (v : Z)
  : dict MakeTrainingData.box :=
  sorted_by Z.ltb (fun x => MakeTrainingData.bl_start_x (snd x))
            (cluster MakeTrainingData.line_indicator v boxes).

(** [f"l{n}"] *)
Definition line_key (n : nat) : string := ("l" ++ str (Z.of_nat n))%string.

(** What the cluster of indicator [v], met as the [i]-th one, adds to the
    result of [simplification]. *)
Definition emitted_line (boxes : dict MakeTrainingData.box) (iv : nat * Z)
  : dict Line :=
  match MakeTrainingData.line_simplification
          (cluster MakeTrainingData.line_indicator (snd iv) boxes) (fst iv) with
  | Ok (Some entry) => [entry]
  | _ => []
  end.

(** A box as [create_box] of make_training_data.py builds it: the line
    indicator is a multiple of 60 and the recorded baseline y lies within
    30 of it. *)
Definition on_grid (b : MakeTrainingData.box) : Prop :=
  (60 | MakeTrainingData.line_indicator b) /\
  MakeTrainingData.line_indicator b - 30 <= MakeTrainingData.bl_start_y b
  <= MakeTrainingData.line_indicator b + 30.

(** Reading order of two boxes: an earlier line, or the same line and not
    further right. *)
Definition reading_order (a b : string * MakeTrainingData.box) : Prop :=
  MakeTrainingData.line_indicator (snd a) < MakeTrainingData.line_indicator (snd b) \/
  (MakeTrainingData.line_indicator (snd a) = MakeTrainingData.line_indicator (snd b) /\
   MakeTrainingData.bl_start_x (snd a) <= MakeTrainingData.bl_start_x (snd b)).

(** Boxes for the worked examples: two on the line of indicator 120, two on
    the line of indicator 60, given out of order. *)
Definition sample_box (start_x y end_x indicator : Z) : MakeTrainingData.box :=
  MakeTrainingData.mkbox start_x y end_x y
    (get_baseline_length (inject_Z start_x) (inject_Z y) (inject_Z end_x) (inject_Z y))
    40 indicator 50 1000.

Definition sample_boxes : dict MakeTrainingData.box :=
  [("box0"%string, sample_box 600 130 900 120);
   ("box1"%string, sample_box 100 70 500 60);
   ("box2"%string, sample_box 100 125 550 120);
   ("box3"%string, sample_box 50 65 80 60)].



(** [int(get_coord(points.split()[n])[0])]: the x of the [n]-th corner of
    a printed polygon. *)
Definition corner_x (points : string) (n : nat) : result Z :=
  b <- item (split points) n ;;
  x <- item (get_coord b) 0 ;;
  Py.int x.

(** [bool(line)] *)
Definition nonempty (line : text) : bool :=
  match line with
  | [] => false
  | _ :: _ => true
  end.

(** A line of a transcript: not empty and free of line boundaries. *)
Definition unbroken (line : text) : Prop :=
  Forall (fun c => is_linebreak c = false) line.

Definition clean_line (line : text) : Prop := line <> [] /\ unbroken line.

(** Two line feeds in a row somewhere in the text. *)
Fixpoint has_blank_line (t : text) : bool :=
  match t with
  | [] => false
  | c :: t' =>
      match t' with
      | d :: _ => ((c =? 10) && (d =? 10))%N || has_blank_line t'
      | [] => false
      end
  end.

(** * Properties *)

Example int_examples :
  Py.int "233" = Ok 233 /\ Py.int "-7" = Ok (-7) /\ Py.int " 1_000 " = Ok 1000 /\
  Py.int "" = Raise ValueError /\ Py.int "1__0" = Raise ValueError /\
  Py.int "5_" = Raise ValueError /\ Py.int "+" = Raise ValueError.
Proof. repeat split; reflexivity. Qed.

Example str_examples : str 0 = "0"%string /\ str 1205 = "1205"%string /\ str (-40) = "-40"%string.
Proof. repeat split; reflexivity. Qed.

Example split_examples :
  split_on "," "233,55" = ["233"; "55"]%string /\
  split_on "," "" = [""]%string /\
  split_on "," "7" = ["7"]%string /\
  split_on "," "1,2," = ["1"; "2"; ""]%string /\
  split "  1,2   3,4 " = ["1,2"; "3,4"]%string /\
  split "" = [].
Proof. repeat split; reflexivity. Qed.

(** ** Loops and exceptions *)

Lemma for_each_pure {A S : Type} (body : S -> A -> result S) (f : S -> A -> S) l :
  (forall s x, In x l -> body s x = Ok (f s x)) ->
  forall s, for_each body l s = Ok (fold_left f l s).
Proof.
  induction l as [|x l IH]; intros Hb s; simpl.
  - reflexivity.
  - rewrite (Hb s x) by (left; reflexivity). simpl.
    apply IH. intros s' x' Hin. apply Hb. right. exact Hin.
Qed.

Lemma bind_ok_inv {A B : Type} (m : result A) (k : A -> result B) (b : B) :
  bind m k = Ok b -> exists a, m = Ok a /\ k a = Ok b.
Proof.
  destruct m as [a|e]; simpl; intros H.
  - exists a. split; [reflexivity | exact H].
  - discriminate H.
Qed.

Lemma item_nth {A : Type} (l : list A) (i : nat) (d : A) :
  (i < List.length l)%nat -> item l i = Ok (nth i l d).
Proof.
  intros Hi. unfold item.
  rewrite (nth_error_nth' l d Hi). reflexivity.
Qed.

(** ** Average height *)

Lemma half_le (n : nat) : (n / 2 <= n)%nat.
Proof. apply Nat.Div0.div_le_upper_bound. lia. Qed.

Lemma half_pos (n : nat) : (2 <= n)%nat -> (0 < n / 2)%nat.
Proof. intros H. apply Nat.div_str_pos. lia. Qed.

Lemma half_small (n : nat) : (n < 2)%nat -> (n / 2 = 0)%nat.
Proof. intros H. apply Nat.div_small. exact H. Qed.

Lemma sum_height_ok (poly : list (Z * Z)) :
  for_each (fun sum_height i =>
              a <- item poly i ;;
              b <- item poly (List.length poly - 1 - i)%nat ;;
              Ok (sum_height + (snd a - snd b)))
           (seq 0 (List.length poly / 2)) 0
  = Ok (paired_differences poly).
Proof.
  unfold paired_differences.
  apply for_each_pure with
    (f := fun acc i => acc + (snd (nth i poly (0, 0))
                              - snd (nth (List.length poly - 1 - i) poly (0, 0)))).
  intros s i Hin. apply in_seq in Hin.
  pose proof (half_le (List.length poly)) as Hle.
  rewrite (item_nth poly i (0, 0)) by lia. cbn [bind].
  rewrite (item_nth poly (List.length poly - 1 - i) (0, 0)) by lia.
  reflexivity.
Qed.

Lemma get_avg_height_cases (poly : list (Z * Z)) :
  ((List.length poly < 2)%nat -> get_avg_height poly = Raise ZeroDivisionError) /\
  ((2 <= List.length poly)%nat ->
   get_avg_height poly
   = Ok (paired_differences poly / Z.of_nat (List.length poly / 2))).
Proof.
  unfold get_avg_height. rewrite sum_height_ok. cbn [bind]. unfold int_floordiv. split.
  - intros Hlt. rewrite (half_small _ Hlt). reflexivity.
  - intros Hge. pose proof (half_pos _ Hge) as Hpos.
    destruct (Z.eqb_spec (Z.of_nat (List.length poly / 2)) 0) as [E|E]; [lia | reflexivity].
Qed.

(** ** Quantisation on the vertical grid *)

Lemma Qltb_lt (x y : Q) : Qltb x y = true <-> (x < y)%Q.
Proof.
  unfold Qltb. rewrite negb_true_iff. split.
  - intros H. apply Qnot_le_lt. intros Hle.
    apply Qle_bool_iff in Hle. congruence.
  - intros H. destruct (Qle_bool y x) eqn:E; [|reflexivity].
    apply Qle_bool_iff in E. exfalso. exact (Qlt_not_le _ _ H E).
Qed.

Lemma floordiv_bounds (y : Q) (b : Z) :
  0 < b ->
  (inject_Z (b * floordiv y b) <= y /\ y < inject_Z (b * (floordiv y b + 1)))%Q.
Proof.
  intros Hb. unfold floordiv.
  assert (Hq : (inject_Z 0 < inject_Z b)%Q) by (rewrite <- Zlt_Qlt; exact Hb).
  assert (Hy : (y == (y / inject_Z b) * inject_Z b)%Q).
  { field. intros E. rewrite E in Hq. exact (Qlt_irrefl _ Hq). }
  set (x := (y / inject_Z b)%Q) in *.
  pose proof (Qfloor_le x) as Hlo. pose proof (Qlt_floor x) as Hhi.
  clearbody x. rewrite !inject_Z_mult, Hy, !(Qmult_comm (inject_Z b)). split.
  - apply Qmult_le_compat_r; [exact Hlo | apply Qlt_le_weak; exact Hq].
  - apply Qmult_lt_compat_r; [exact Hq | exact Hhi].
Qed.

Lemma get_y_avg_inv (coords : list string) (y : Q) :
  get_y_avg coords = Ok y ->
  exists ys, collect_ys coords = Ok ys /\ mean ys = Ok y.
Proof. unfold get_y_avg. apply bind_ok_inv. Qed.

Lemma get_line_indicator_60 (coords : list string) (y : Q) :
  get_y_avg coords = Ok y ->
  MakeTrainingData.get_line_indicator coords = Ok (vertical_bucket_rule 30 60 y).
Proof.
  intros H. destruct (get_y_avg_inv _ _ H) as (ys & Hys & Hm).
  unfold MakeTrainingData.get_line_indicator, vertical_bucket_rule.
  rewrite Hys. cbn [bind]. rewrite Hm. cbn [bind].
  change (inject_Z 30) with 30%Q.
  destruct (Qltb 30 (modulo y 60)); reflexivity.
Qed.


(** The result of the rule lies on the grid, at most [b - threshold] above
    and at most [threshold] below the value it rounds. *)
Lemma vertical_bucket_rule_window (t : Z) (b : Z) (y : Q) :
  0 <= t < b ->
  let r := vertical_bucket_rule (inject_Z t) b y in
  (b | r) /\ (inject_Z (r - (b - t)) < y)%Q /\ (y <= inject_Z (r + t))%Q.
Proof.
  intros Ht r. subst r. unfold vertical_bucket_rule.
  assert (Hb : 0 < b) by lia.
  destruct (floordiv_bounds y b Hb) as [Hlo Hhi].
  set (k := floordiv y b) in *.
  assert (Hm : (modulo y b == y - inject_Z (b * k))%Q) by (unfold modulo; reflexivity).
  destruct (Qltb (inject_Z t) (modulo y b)) eqn:E.
  - apply Qltb_lt in E. rewrite Hm in E. split; [|split].
    + exists (k + 1). reflexivity.
    + replace ((k + 1) * b - (b - t)) with (b * k + t) by ring.
      rewrite inject_Z_plus. apply Qlt_minus_iff in E. apply Qlt_minus_iff.
      setoid_replace (y + - (inject_Z (b * k) + inject_Z t))%Q
        with (y - inject_Z (b * k) + - inject_Z t)%Q by ring.
      exact E.
    + apply Qlt_le_weak. eapply Qlt_le_trans; [exact Hhi|].
      rewrite <- Zle_Qle. nia.
  - assert (E' : ~ (inject_Z t < modulo y b)%Q).
    { intros C. apply Qltb_lt in C. congruence. }
    apply Qnot_lt_le in E'. rewrite Hm in E'. split; [|split].
    + exists k. reflexivity.
    + eapply Qlt_le_trans; [|exact Hlo].
      rewrite <- Zlt_Qlt. nia.
    + replace (k * b + t) with (b * k + t) by ring.
      rewrite inject_Z_plus. apply Qle_minus_iff in E'. apply Qle_minus_iff.
      setoid_replace (inject_Z (b * k) + inject_Z t + - y)%Q
        with (inject_Z t + - (y - inject_Z (b * k)))%Q by ring.
      exact E'.
Qed.








(** ** Strings: printing and reading integers, splitting *)

Lemma all_chars_app (p : ascii -> bool) (s t : string) :
  all_chars p (s ++ t) = all_chars p s && all_chars p t.
Proof.
  induction s as [|c s IH]; simpl.
  - reflexivity.
  - rewrite IH. apply andb_assoc.
Qed.

Lemma all_chars_weaken (p q : ascii -> bool) (s : string) :
  (forall c, p c = true -> q c = true) ->
  all_chars p s = true -> all_chars q s = true.
Proof.
  intros Hpq. induction s as [|c s IH]; simpl.
  - reflexivity.
  - rewrite !andb_true_iff. intros [Hc Hs]. split; [apply Hpq; exact Hc | apply IH; exact Hs].
Qed.

Lemma split_on_whole (sep : ascii) (s : string) :
  all_chars (differs_from sep) s = true -> split_on sep s = [s].
Proof.
  induction s as [|c s IH]; simpl.
  - reflexivity.
  - unfold differs_from at 1. rewrite andb_true_iff, negb_true_iff.
    intros [Hc Hs]. rewrite Hc, (IH Hs). reflexivity.
Qed.

Lemma split_on_app (sep : ascii) (s t : string) :
  all_chars (differs_from sep) s = true ->
  split_on sep (s ++ String sep t) = s :: split_on sep t.
Proof.
  induction s as [|c s IH]; simpl.
  - intros _. rewrite Ascii.eqb_refl. reflexivity.
  - unfold differs_from at 1. rewrite andb_true_iff, negb_true_iff.
    intros [Hc Hs]. rewrite Hc, (IH Hs). reflexivity.
Qed.

Lemma split_on_nonempty (sep : ascii) (s : string) : split_on sep s <> [].
Proof.
  destruct s as [|c s]; simpl; [discriminate|].
  destruct (Ascii.eqb c sep); [discriminate|].
  destruct (split_on sep s); discriminate.
Qed.

Lemma string_of_uint_digits (d : Decimal.uint) :
  all_chars is_digit (NilEmpty.string_of_uint d) = true.
Proof. induction d; simpl; auto. Qed.

Lemma str_numeral (z : Z) : all_chars is_numeral_char (str z) = true.
Proof.
  assert (Hu : forall d, all_chars is_numeral_char (NilZero.string_of_uint d) = true).
  { intros d. destruct d; try reflexivity;
      apply all_chars_weaken with (p := is_digit);
      try (intros c Hc; unfold is_numeral_char; rewrite Hc; reflexivity);
      apply (string_of_uint_digits (_ d)). }
  unfold str. destruct (Z.to_int z) as [d|d]; simpl.
  - apply Hu.
  - apply Hu.
Qed.

Lemma numeral_char_cases (c : ascii) :
  is_numeral_char c = true ->
  is_space c = false /\ differs_from " " c = true /\ differs_from "," c = true.
Proof.
  destruct c as [[] [] [] [] [] [] [] []]; try discriminate; repeat split.
Qed.

Lemma str_without (z : Z) :
  all_chars (fun c => negb (is_space c)) (str z) = true /\
  all_chars (differs_from " ") (str z) = true /\
  all_chars (differs_from ",") (str z) = true.
Proof.
  pose proof (str_numeral z) as H. repeat split;
    (eapply all_chars_weaken; [|exact H]); intros c Hc;
    destruct (numeral_char_cases c Hc) as (A & B & C); auto.
  rewrite A. reflexivity.
Qed.

Lemma rstrip_without_space (s : string) :
  all_chars (fun c => negb (is_space c)) s = true -> rstrip s = s.
Proof.
  induction s as [|c s IH]; simpl.
  - reflexivity.
  - rewrite andb_true_iff, negb_true_iff. intros [Hc Hs].
    rewrite (IH Hs), Hc. destruct s; reflexivity.
Qed.

Lemma strip_without_space (s : string) :
  all_chars (fun c => negb (is_space c)) s = true -> strip s = s.
Proof.
  intros H. unfold strip.
  assert (Hl : lstrip s = s).
  { destruct s as [|c s]; simpl in *; [reflexivity|].
    apply andb_true_iff in H. destruct H as [Hc _].
    apply negb_true_iff in Hc. rewrite Hc. reflexivity. }
  rewrite Hl. apply rstrip_without_space. exact H.
Qed.

Lemma int_digits_of_uint (d : Decimal.uint) :
  forall acc b, (d <> Decimal.Nil \/ b = true) ->
  int_digits (NilEmpty.string_of_uint d) acc b = Some (uint_value d acc).
Proof.
  induction d; intros acc b Hb;
    try (simpl; apply IHd; right; reflexivity).
  simpl. destruct Hb as [Hb|Hb]; [congruence | rewrite Hb; reflexivity].
Qed.

Lemma uint_value_pos (d : Decimal.uint) :
  forall acc, uint_value d (Zpos acc) = Zpos (Pos.of_uint_acc d acc).
Proof.
  induction d; intros acc; cbn [uint_value Pos.of_uint_acc]; try reflexivity;
    match goal with
    | |- uint_value _ ?a = Zpos (Pos.of_uint_acc _ ?p) =>
        replace a with (Zpos p) by lia; apply IHd
    end.
Qed.

Lemma uint_value_of_uint (d : Decimal.uint) : uint_value d 0 = Z.of_uint d.
Proof.
  unfold Z.of_uint.
  induction d; cbn [uint_value Pos.of_uint]; try reflexivity; try exact IHd;
    apply (uint_value_pos d).
Qed.

Lemma int_of_digit_first (c : ascii) (s : string) :
  is_digit c = true ->
  strip (String c s) = String c s ->
  Py.int (String c s)
  = match int_digits (String c s) 0 false with
    | Some n => Ok n
    | None => Raise ValueError
    end.
Proof.
  intros Hc Hs. unfold Py.int. rewrite Hs.
  destruct c as [[] [] [] [] [] [] [] []]; try discriminate Hc; reflexivity.
Qed.

Lemma int_of_minus_first (s : string) :
  strip (String "-" s) = String "-" s ->
  Py.int (String "-" s)
  = match option_map Z.opp (int_digits s 0 false) with
    | Some n => Ok n
    | None => Raise ValueError
    end.
Proof. intros Hs. unfold Py.int. rewrite Hs. reflexivity. Qed.

Lemma string_of_uint_nonnil (d : Decimal.uint) :
  d <> Decimal.Nil ->
  exists c s, NilEmpty.string_of_uint d = String c s /\ is_digit c = true.
Proof.
  destruct d; intros H; try congruence; simpl; eexists; eexists; split; reflexivity.
Qed.

(** Reading back a printed integer gives the integer. *)
Lemma int_str (z : Z) : Py.int (str z) = Ok z.
Proof.
  destruct (str_without z) as (Hsp & _ & _).
  pose proof (strip_without_space _ Hsp) as Hstrip.
  pose proof (DecimalZ.of_to z) as Hz.
  unfold str in *.
  destruct z as [|p|p]; [reflexivity| |].
  - simpl in *. unfold Z.of_uint in Hz.
    pose proof (Unsigned.to_uint_nonnil p) as Hn.
    unfold NilZero.string_of_uint in *.
    destruct (Pos.to_uint p) eqn:E; try congruence;
      rewrite <- E in *;
      destruct (string_of_uint_nonnil _ Hn) as (c & s & Es & Hc);
      rewrite Es in *; rewrite (int_of_digit_first c s Hc Hstrip);
      rewrite <- Es, (int_digits_of_uint _ 0 false (or_introl Hn)),
        uint_value_of_uint; unfold Z.of_uint; rewrite Hz; reflexivity.
  - simpl in *. unfold Z.of_uint in Hz.
    pose proof (Unsigned.to_uint_nonnil p) as Hn.
    rewrite (int_of_minus_first _ Hstrip).
    unfold NilZero.string_of_uint in *.
    destruct (Pos.to_uint p) eqn:E; try congruence;
      rewrite <- E in *;
      rewrite (int_digits_of_uint _ 0 false (or_introl Hn)),
        uint_value_of_uint; unfold Z.of_uint; simpl;
      destruct (Pos.of_uint (Pos.to_uint p)); simpl in *; congruence.
Qed.

(** ** [min] and [max] with a key *)

Section Extremes.

Context {A K : Type} (ltb : K -> K -> bool) (key : A -> K).

Hypothesis ltb_trans :
  forall a b c, ltb a b = true -> ltb b c = true -> ltb a c = true.
Hypothesis ltb_not_trans :
  forall a b c, ltb a b = false -> ltb b c = false -> ltb a c = false.

Lemma max_from_first_greatest (l : list A) :
  forall seen1 seen2 best,
    (forall x, In x seen1 -> ltb (key x) (key best) = true) ->
    (forall x, In x seen2 -> ltb (key best) (key x) = false) ->
    first_greatest ltb key (max_from ltb key best l) (seen1 ++ best :: seen2 ++ l).
Proof.
  induction l as [|x l IH]; intros seen1 seen2 best H1 H2; simpl.
  - exists seen1, seen2. rewrite app_nil_r. auto.
  - destruct (ltb (key best) (key x)) eqn:E.
    + replace (seen1 ++ best :: seen2 ++ x :: l)
        with ((seen1 ++ best :: seen2) ++ x :: [] ++ l)
        by (rewrite <- app_assoc; reflexivity).
      apply IH.
      * intros y Hy. apply in_app_or in Hy. destruct Hy as [Hy|[Hy|Hy]].
        -- eapply ltb_trans; [apply H1; exact Hy | exact E].
        -- subst y. exact E.
        -- destruct (ltb (key y) (key x)) eqn:E'; [reflexivity|].
           rewrite (ltb_not_trans _ _ _ (H2 y Hy) E') in E. discriminate E.
      * intros y [].
    + replace (seen1 ++ best :: seen2 ++ x :: l)
        with (seen1 ++ best :: (seen2 ++ [x]) ++ l)
        by (rewrite <- app_assoc; reflexivity).
      apply IH; [exact H1|].
      intros y Hy. apply in_app_or in Hy. destruct Hy as [Hy|[Hy|[]]].
      -- apply H2. exact Hy.
      -- subst y. exact E.
Qed.

Lemma max_by_first_greatest (l : list A) :
  l <> [] -> exists m, max_by ltb key l = Ok m /\ first_greatest ltb key m l.
Proof.
  destruct l as [|x l]; [congruence|]. intros _.
  exists (max_from ltb key x l). split; [reflexivity|].
  apply (max_from_first_greatest l [] [] x); intros y [].
Qed.

Lemma first_greatest_in (m : A) (l : list A) :
  first_greatest ltb key m l -> In m l.
Proof.
  intros (l1 & l2 & -> & _). apply in_or_app. right. left. reflexivity.
Qed.

End Extremes.

Lemma min_from_as_max {A K : Type} (ltb : K -> K -> bool) (key : A -> K) (l : list A) :
  forall best, min_from ltb key best l = max_from (fun a b => ltb b a) key best l.
Proof.
  induction l as [|x l IH]; intros best; simpl; [reflexivity | apply IH].
Qed.

Lemma min_by_first_least {A K : Type} (ltb : K -> K -> bool) (key : A -> K) (l : list A) :
  (forall a b c, ltb a b = true -> ltb b c = true -> ltb a c = true) ->
  (forall a b c, ltb a b = false -> ltb b c = false -> ltb a c = false) ->
  l <> [] -> exists m, min_by ltb key l = Ok m /\ first_least ltb key m l.
Proof.
  intros Ht Hn Hl.
  destruct (max_by_first_greatest (fun a b => ltb b a) key) with (l := l)
    as (m & Hm & Hfg); eauto.
  exists m. split; [|exact Hfg].
  destruct l as [|x l]; [congruence|].
  simpl in *. rewrite min_from_as_max. exact Hm.
Qed.

Lemma Zltb_trans (a b c : Z) : (a <? b) = true -> (b <? c) = true -> (a <? c) = true.
Proof. rewrite !Z.ltb_lt. lia. Qed.

Lemma Zltb_not_trans (a b c : Z) : (a <? b) = false -> (b <? c) = false -> (a <? c) = false.
Proof. rewrite !Z.ltb_ge. lia. Qed.

Lemma Qltb_false (x y : Q) : Qltb x y = false <-> (y <= x)%Q.
Proof.
  unfold Qltb. rewrite negb_false_iff. apply Qle_bool_iff.
Qed.

Lemma root_ltb_trans (a b c : root) :
  root_ltb a b = true -> root_ltb b c = true -> root_ltb a c = true.
Proof. unfold root_ltb. rewrite !Qltb_lt. apply Qlt_trans. Qed.

Lemma root_ltb_not_trans (a b c : root) :
  root_ltb a b = false -> root_ltb b c = false -> root_ltb a c = false.
Proof.
  unfold root_ltb. rewrite !Qltb_false. intros H1 H2. eapply Qle_trans; eassumption.
Qed.



(** ** The length of a horizontal baseline *)

Lemma Qltb_compat_r (x y y' : Q) : (y == y')%Q -> Qltb x y = Qltb x y'.
Proof.
  intros E. destruct (Qltb x y') eqn:H.
  - apply Qltb_lt. apply Qltb_lt in H. rewrite E. exact H.
  - apply Qltb_false. apply Qltb_false in H. rewrite E. exact H.
Qed.

Lemma Qltb_inject_Z (a b : Z) : Qltb (inject_Z a) (inject_Z b) = (a <? b).
Proof.
  destruct (Z.ltb_spec a b) as [H|H].
  - apply Qltb_lt. rewrite <- Zlt_Qlt. exact H.
  - apply Qltb_false. rewrite <- Zle_Qle. exact H.
Qed.

Lemma horizontal_length_gt (x1 x2 y k : Z) :
  0 <= k ->
  root_gt_int (get_baseline_length (inject_Z x1) (inject_Z y) (inject_Z x2) (inject_Z y)) k
  = (k <? Z.abs (x2 - x1)).
Proof.
  intros Hk. unfold root_gt_int, get_baseline_length. cbn [radicand].
  replace (k <? 0) with false by (symmetry; apply Z.ltb_ge; exact Hk).
  cbn [orb].
  rewrite (Qltb_compat_r _ _ (inject_Z ((x1 - x2) * (x1 - x2)))).
  - rewrite Qltb_inject_Z.
    destruct (Z.ltb_spec (k * k) ((x1 - x2) * (x1 - x2))) as [H|H];
      destruct (Z.ltb_spec k (Z.abs (x2 - x1))) as [H'|H']; try reflexivity; nia.
  - rewrite inject_Z_mult. unfold Zminus. rewrite inject_Z_plus, inject_Z_opp.
    simpl Qpower. ring.
Qed.

(** ** The coordinate strings of a line *)

Lemma xy_without_space (x y : Z) : all_chars (differs_from " ") (xy x y) = true.
Proof.
  unfold xy. destruct (str_without x) as (_ & Hx & _). destruct (str_without y) as (_ & Hy & _).
  rewrite all_chars_app, Hx. simpl. exact Hy.
Qed.

Lemma split_xy (x y : Z) : split_on "," (xy x y) = [str x; str y].
Proof.
  unfold xy. destruct (str_without x) as (_ & _ & Hx). destruct (str_without y) as (_ & _ & Hy).
  change ("," ++ str y)%string with (String "," (str y)).
  rewrite (split_on_app _ _ _ Hx), (split_on_whole _ _ Hy). reflexivity.
Qed.

Lemma split_two_points (p1 p2 : Z * Z) :
  split_on " " (xy (fst p1) (snd p1) ++ " " ++ xy (fst p2) (snd p2))
  = map (fun p => xy (fst p) (snd p)) [p1; p2].
Proof.
  change (" " ++ xy (fst p2) (snd p2))%string with (String " " (xy (fst p2) (snd p2))).
  rewrite (split_on_app _ _ _ (xy_without_space _ _)).
  rewrite (split_on_whole _ _ (xy_without_space _ _)). reflexivity.
Qed.

Lemma split_four_points (p1 p2 p3 p4 : Z * Z) :
  split_on " " (xy (fst p1) (snd p1) ++ " " ++ xy (fst p2) (snd p2) ++ " "
                ++ xy (fst p3) (snd p3) ++ " " ++ xy (fst p4) (snd p4))
  = map (fun p => xy (fst p) (snd p)) [p1; p2; p3; p4].
Proof.
  repeat match goal with
         | |- context [(" " ++ ?s)%string] =>
             change (" " ++ s)%string with (String " " s)
         end.
  rewrite !(split_on_app _ _ _ (xy_without_space _ _)).
  rewrite (split_on_whole _ _ (xy_without_space _ _)). reflexivity.
Qed.

(** Reading the tokens back with the code's own polygon reader. *)
Lemma get_poly_coord_xy (pts : list (Z * Z)) :
  get_poly_coord (map (fun p => xy (fst p) (snd p)) pts) = Ok pts.
Proof.
  unfold get_poly_coord.
  enough (H : forall acc,
             for_each (fun res point =>
                         let point := split_on "," point in
                         p0 <- item point 0 ;;
                         x <- Py.int p0 ;;
                         p1 <- item point 1 ;;
                         y <- Py.int p1 ;;
                         Ok (res ++ [(x, y)]))
                      (map (fun p => xy (fst p) (snd p)) pts) acc
             = Ok (acc ++ pts)) by apply (H []).
  induction pts as [|[x y] pts IH]; intros acc; simpl.
  - rewrite app_nil_r. reflexivity.
  - rewrite split_xy. cbn [item nth_error bind]. rewrite !int_str. cbn [bind].
    rewrite IH, <- app_assoc. reflexivity.
Qed.

Lemma get_start_y_four_points (p1 p2 p3 p4 : Z * Z) :
  MakeTrainingData.get_start_y
    (xy (fst p1) (snd p1) ++ " " ++ xy (fst p2) (snd p2) ++ " "
     ++ xy (fst p3) (snd p3) ++ " " ++ xy (fst p4) (snd p4))
  = Ok (str (snd p4)).
Proof.
  unfold MakeTrainingData.get_start_y. rewrite split_four_points.
  cbn [map last_item last bind]. rewrite split_xy. reflexivity.
Qed.

(** ** Line simplification *)

(** What [line_simplification] of make_training_data.py computes on a
    non-empty cluster, in terms of the three members it selects. *)
Lemma line_simplification_fixed_band (sub_box : dict MakeTrainingData.box) (n : nat) :
  sub_box <> [] ->
  exists first_start last_end rep,
    first_least Z.ltb (fun x => MakeTrainingData.bl_start_x (snd x)) first_start sub_box /\
    first_greatest Z.ltb (fun x => MakeTrainingData.bl_end_x (snd x)) last_end sub_box /\
    first_greatest root_ltb (fun x => MakeTrainingData.bl_length (snd x)) rep sub_box /\
    let start := MakeTrainingData.bl_start_x (snd first_start) in
    let end_ := MakeTrainingData.bl_end_x (snd last_end) in
    let left := MakeTrainingData.left_border (snd first_start) in
    let right := MakeTrainingData.right_border (snd last_end) in
    let y := MakeTrainingData.bl_start_y (snd rep) in
    MakeTrainingData.line_simplification sub_box n
    = Ok (if (400 <? Z.abs (end_ - start))
             && negb (MakeTrainingData.line_indicator (snd rep) =? 0)
          then Some (("l" ++ str (Z.of_nat n))%string,
                     {| bl_points := (xy left y ++ " " ++ xy right y)%string;
                        poly_coord := (xy left (y + 25) ++ " " ++ xy right (y + 25) ++ " "
                                       ++ xy right (y - 25) ++ " " ++ xy left (y - 25))%string |})
          else None).
Proof.
  intros Hne.
  destruct (min_by_first_least Z.ltb (fun x => MakeTrainingData.bl_start_x (snd x)) sub_box
              Zltb_trans Zltb_not_trans Hne) as (fs & Hfs & Pfs).
  destruct (max_by_first_greatest Z.ltb (fun x => MakeTrainingData.bl_end_x (snd x))
              Zltb_trans Zltb_not_trans sub_box Hne) as (le & Hle & Ple).
  destruct (max_by_first_greatest root_ltb (fun x => MakeTrainingData.bl_length (snd x))
              root_ltb_trans root_ltb_not_trans sub_box Hne) as (rep & Hrep & Prep).
  exists fs, le, rep. repeat (split; [assumption|]).
  unfold MakeTrainingData.line_simplification.
  rewrite Hfs. cbn [bind]. rewrite Hle. cbn [bind]. rewrite Hrep. cbn [bind].
  rewrite horizontal_length_gt by lia.
  destruct ((400 <? _) && _); reflexivity.
Qed.





Lemma line_simplification_some_nonempty_60 (sub_box : dict MakeTrainingData.box) n r :
  MakeTrainingData.line_simplification sub_box n = Ok r -> sub_box <> [].
Proof. intros H E. subst sub_box. discriminate H. Qed.


(** C8: a line emitted by [line_simplification] of make_training_data.py
    carries exactly two baseline tokens, the left end then the right end at
    the representative y, and exactly four polygon tokens: bottom-left,
    bottom-right, top-right, top-left (y grows downwards on the page, so the
    bottom edge is the one at [y + 25]).  Each token is an ["x,y"] pair that
    the polygon reader reads back. *)
Theorem line_simplification_tokens
        (sub_box : dict MakeTrainingData.box) (n : nat) (key : string) (line : Line) :
  MakeTrainingData.line_simplification sub_box n = Ok (Some (key, line)) ->
  exists first_start last_end rep,
    first_least Z.ltb (fun x => MakeTrainingData.bl_start_x (snd x)) first_start sub_box /\
    first_greatest Z.ltb (fun x => MakeTrainingData.bl_end_x (snd x)) last_end sub_box /\
    first_greatest root_ltb (fun x => MakeTrainingData.bl_length (snd x)) rep sub_box /\
    let left := MakeTrainingData.left_border (snd first_start) in
    let right := MakeTrainingData.right_border (snd last_end) in
    let y := MakeTrainingData.bl_start_y (snd rep) in
    let top := y - 25 in
    let bottom := y + 25 in
    split_on " " (bl_points line) = [xy left y; xy right y] /\
    get_poly_coord (split_on " " (bl_points line)) = Ok [(left, y); (right, y)] /\
    split_on " " (poly_coord line)
    = [xy left bottom; xy right bottom; xy right top; xy left top] /\
    get_poly_coord (split_on " " (poly_coord line))
    = Ok [(left, bottom); (right, bottom); (right, top); (left, top)] /\
    top < bottom.
Proof.
  intros H.
  destruct (line_simplification_fixed_band sub_box n
              (line_simplification_some_nonempty_60 _ _ _ H))
    as (fs & le & rep & Pfs & Ple & Prep & Hls).
  exists fs, le, rep. repeat (split; [assumption|]).
  cbv zeta in *. rewrite Hls in H.
  destruct ((400 <? _) && _); [|discriminate H].
  injection H as _ H. subst line. cbn [bl_points poly_coord].
  set (left := MakeTrainingData.left_border (snd fs)).
  set (right := MakeTrainingData.right_border (snd le)).
  set (y := MakeTrainingData.bl_start_y (snd rep)).
  pose proof (split_two_points (left, y) (right, y)) as H2.
  pose proof (split_four_points (left, y + 25) (right, y + 25) (right, y - 25) (left, y - 25))
    as H4.
  cbn [fst snd append] in H2, H4. rewrite H2, H4.
  rewrite !get_poly_coord_xy.
  repeat split; lia.
Qed.

Lemma line_simplification_tokens_witness :
  exists left right y,
    split_on " " "50,500 1000,500" = [xy left y; xy right y] /\
    split_on " " "50,525 1000,525 1000,475 50,475"
    = [xy left (y + 25); xy right (y + 25); xy right (y - 25); xy left (y - 25)].
Proof.
  destruct (line_simplification_tokens
              [("box0"%string,
                MakeTrainingData.mkbox 100 500 900 500 (get_baseline_length 100 500 900 500)
                                       40 480 50 1000)] 0%nat "l0"%string
              (mkLine "50,500 1000,500" "50,525 1000,525 1000,475 50,475") eq_refl)
    as (fs & le & rep & _ & _ & _ & Hb & _ & Hp & _).
  exists (MakeTrainingData.left_border (snd fs)), (MakeTrainingData.right_border (snd le)),
    (MakeTrainingData.bl_start_y (snd rep)).
  split; [exact Hb | exact Hp].
Defined.




(** ** Overlap removal *)

Lemma getitem_in {V : Type} (d : dict V) (k : string) (v : V) :
  NoDup (map fst d) -> In (k, v) d -> getitem d k = Ok v.
Proof.
  induction d as [|[k' v'] d IH]; simpl; intros Hnd Hin; [contradiction|].
  inversion Hnd as [|? ? Hnotin Hnd']; subst.
  destruct Hin as [E|Hin].
  - injection E as -> ->. rewrite String.eqb_refl. reflexivity.
  - destruct (String.eqb_spec k' k) as [->|Hne].
    + exfalso. apply Hnotin. apply (in_map fst) in Hin. exact Hin.
    + apply IH; assumption.
Qed.

Lemma delitem_app {V : Type} (kept d : dict V) (k : string) (v : V) :
  ~ In k (map fst kept) -> delitem (kept ++ (k, v) :: d) k = Ok (kept ++ d).
Proof.
  induction kept as [|[k' v'] kept IH]; simpl; intros Hnotin.
  - rewrite String.eqb_refl. reflexivity.
  - destruct (String.eqb_spec k' k) as [->|Hne].
    + exfalso. apply Hnotin. left. reflexivity.
    + rewrite IH by (intros H; apply Hnotin; right; exact H). reflexivity.
Qed.

(** The scanning step reads two reference ys and touches nothing but the
    list of marked keys. *)
Lemma scan_step_next (st : MakeTrainingData.overlap_state) (i : nat)
      (key pk : string) (box prev_box : Line) (prev_y cur_y : Z) :
  MakeTrainingData.prev_key st = Some pk ->
  getitem (MakeTrainingData.sim_box st) pk = Ok prev_box ->
  reference_y prev_box = Ok prev_y ->
  reference_y box = Ok cur_y ->
  MakeTrainingData.scan_step st (S i, (key, box))
  = Ok {| MakeTrainingData.sim_box := MakeTrainingData.sim_box st;
          MakeTrainingData.rm_key :=
            MakeTrainingData.rm_key st ++ (if cur_y - prev_y <? 40 then [pk] else []);
          MakeTrainingData.prev_key := Some key |}.
Proof.
  intros Hpk Hget Hprev Hcur. unfold MakeTrainingData.scan_step.
  cbn [Nat.eqb]. rewrite Hpk, Hget. cbn [bind].
  unfold reference_y in Hprev, Hcur.
  destruct (MakeTrainingData.get_start_y (poly_coord prev_box)) as [ps|]; [|discriminate Hprev].
  cbn [bind] in *. rewrite Hprev. cbn [bind].
  destruct (MakeTrainingData.get_start_y (poly_coord box)) as [cs|]; [|discriminate Hcur].
  cbn [bind] in *. rewrite Hcur. cbn [bind].
  destruct (cur_y - prev_y <? 40); [reflexivity | rewrite app_nil_r; reflexivity].
Qed.

Lemma scan_loop (d : dict Line) (rest : dict Line) :
  forall (i : nat) (acc : list string) (pk : string) (pl : Line) (py : Z) (ys : list Z),
    getitem d pk = Ok pl ->
    reference_y pl = Ok py ->
    (forall kv, In kv rest -> getitem d (fst kv) = Ok (snd kv)) ->
    map (fun kv => reference_y (snd kv)) rest = map Ok ys ->
    exists last_key,
      for_each MakeTrainingData.scan_step (enumerate_from (S i) rest)
               {| MakeTrainingData.sim_box := d;
                  MakeTrainingData.rm_key := acc;
                  MakeTrainingData.prev_key := Some pk |}
      = Ok {| MakeTrainingData.sim_box := d;
              MakeTrainingData.rm_key :=
                acc ++ keep_where true (close_to_next (py :: ys)) (pk :: map fst rest);
              MakeTrainingData.prev_key := last_key |}.
Proof.
  induction rest as [|[k l] rest IH]; intros i acc pk pl py ys Hget Hpy Hall Hys.
  - destruct ys; [|discriminate Hys]. exists (Some pk). simpl. rewrite app_nil_r. reflexivity.
  - destruct ys as [|y ys]; [discriminate Hys|].
    simpl in Hys. injection Hys as Hy Hys.
    cbn [enumerate_from for_each].
    erewrite scan_step_next; [|reflexivity | exact Hget | exact Hpy | exact Hy]. cbn [bind].
    cbn [MakeTrainingData.sim_box MakeTrainingData.rm_key].
    destruct (IH (S i) (acc ++ (if y - py <? 40 then [pk] else [])) k l y ys)
      as (lk & Hlk); auto.
    + apply (Hall (k, l)). left. reflexivity.
    + intros kv Hin. apply Hall. right. exact Hin.
    + exists lk. rewrite Hlk. f_equal. f_equal.
      rewrite <- app_assoc. f_equal.
      cbn [close_to_next keep_where map fst].
      destruct (y - py <? 40); reflexivity.
Qed.

Lemma scan_marks (d : dict Line) (ys : list Z) :
  NoDup (map fst d) ->
  map (fun kv => reference_y (snd kv)) d = map Ok ys ->
  exists last_key,
    MakeTrainingData.scan d
    = Ok {| MakeTrainingData.sim_box := d;
            MakeTrainingData.rm_key := keep_where true (close_to_next ys) (map fst d);
            MakeTrainingData.prev_key := last_key |}.
Proof.
  intros Hnd Hys. unfold MakeTrainingData.scan, enumerate.
  destruct d as [|[k l] rest].
  - destruct ys; [|discriminate Hys]. exists None. reflexivity.
  - destruct ys as [|y ys]; [discriminate Hys|].
    simpl in Hys. injection Hys as Hy Hys.
    cbn [enumerate_from for_each MakeTrainingData.scan_step Nat.eqb bind].
    cbn [MakeTrainingData.sim_box MakeTrainingData.rm_key].
    destruct (scan_loop ((k, l) :: rest) rest 0 [] k l y ys) as (lk & Hlk); auto.
    + apply getitem_in; [exact Hnd | left; reflexivity].
    + intros [k' l'] Hin. apply getitem_in; [exact Hnd | right; exact Hin].
    + exists lk. exact Hlk.
Qed.

Lemma delete_marked (d : dict Line) :
  forall (flags : list bool) (kept : dict Line) (rm : list string) (pk : option string),
    List.length flags = List.length d ->
    NoDup (map fst (kept ++ d)) ->
    for_each MakeTrainingData.delete_step (keep_where true flags (map fst d))
             {| MakeTrainingData.sim_box := kept ++ d;
                MakeTrainingData.rm_key := rm;
                MakeTrainingData.prev_key := pk |}
    = Ok {| MakeTrainingData.sim_box := kept ++ keep_where false flags d;
            MakeTrainingData.rm_key := rm;
            MakeTrainingData.prev_key := pk |}.
Proof.
  induction d as [|[k l] d IH]; intros flags kept rm pk Hlen Hnd.
  - destruct flags; [reflexivity | discriminate Hlen].
  - destruct flags as [|f flags]; [discriminate Hlen|].
    injection Hlen as Hlen.
    destruct f; cbn [map fst keep_where Bool.eqb].
    + cbn [for_each]. unfold MakeTrainingData.delete_step at 1.
      cbn [MakeTrainingData.sim_box].
      rewrite delitem_app.
      * cbn [bind MakeTrainingData.rm_key MakeTrainingData.prev_key].
        apply IH; [exact Hlen|]. rewrite map_app in *. cbn [map fst] in Hnd.
        apply NoDup_remove_1 in Hnd. exact Hnd.
      * rewrite map_app in Hnd. cbn [map fst] in Hnd.
        apply NoDup_remove_2 in Hnd. intros H. apply Hnd.
        apply in_or_app. left. exact H.
    + replace (kept ++ (k, l) :: d) with ((kept ++ [(k, l)]) ++ d)
        by (rewrite <- app_assoc; reflexivity).
      replace (kept ++ (k, l) :: keep_where false flags d)
        with ((kept ++ [(k, l)]) ++ keep_where false flags d)
        by (rewrite <- app_assoc; reflexivity).
      apply IH; [exact Hlen|]. rewrite <- app_assoc. exact Hnd.
Qed.

Lemma close_to_next_length (ys : list Z) :
  List.length (close_to_next ys) = List.length ys.
Proof.
  induction ys as [|y ys IH]; [reflexivity|].
  destruct ys as [|y' ys]; [reflexivity|].
  change (close_to_next (y :: y' :: ys))
    with ((y' - y <? 40) :: close_to_next (y' :: ys)).
  simpl List.length in *. rewrite IH. reflexivity.
Qed.

(** What [rm_overlap] returns on a dictionary of lines whose reference ys
    read as [ys]: the lines not followed by a line less than 40 further. *)
Lemma rm_overlap_keeps (d : dict Line) (ys : list Z) :
  NoDup (map fst d) ->
  map (fun kv => reference_y (snd kv)) d = map Ok ys ->
  MakeTrainingData.rm_overlap d = Ok (keep_where false (close_to_next ys) d).
Proof.
  intros Hnd Hys. unfold MakeTrainingData.rm_overlap.
  destruct (scan_marks d ys Hnd Hys) as (lk & Hscan).
  rewrite Hscan. cbn [bind MakeTrainingData.rm_key].
  rewrite (delete_marked d (close_to_next ys) [] _ lk).
  - reflexivity.
  - rewrite close_to_next_length.
    apply (f_equal (@List.length _)) in Hys. rewrite !length_map in Hys.
    symmetry. exact Hys.
  - exact Hnd.
Qed.



(** The lines that [line_simplification] emits are readable by
    [rm_overlap]: the reference y is the upper edge of the polygon. *)
Lemma reference_y_four_points (line : Line) (p1 p2 p3 p4 : Z * Z) :
  poly_coord line
  = (xy (fst p1) (snd p1) ++ " " ++ xy (fst p2) (snd p2) ++ " "
     ++ xy (fst p3) (snd p3) ++ " " ++ xy (fst p4) (snd p4))%string ->
  reference_y line = Ok (snd p4).
Proof.
  intros E. unfold reference_y. rewrite E.
  rewrite get_start_y_four_points. cbn [bind]. apply int_str.
Qed.

Lemma reference_y_emitted_line
      (sub_box : dict MakeTrainingData.box) (n : nat) (key : string) (line : Line) :
  MakeTrainingData.line_simplification sub_box n = Ok (Some (key, line)) ->
  exists rep,
    first_greatest root_ltb (fun x => MakeTrainingData.bl_length (snd x)) rep sub_box /\
    reference_y line = Ok (MakeTrainingData.bl_start_y (snd rep) - 25).
Proof.
  intros H.
  destruct (line_simplification_fixed_band sub_box n
              (line_simplification_some_nonempty_60 _ _ _ H))
    as (fs & le & rep & _ & _ & Prep & Hls).
  exists rep. split; [exact Prep|].
  cbv zeta in Hls. rewrite Hls in H.
  destruct ((400 <? _) && _); [|discriminate H].
  injection H as _ H. subst line.
  apply (reference_y_four_points _
           (MakeTrainingData.left_border (snd fs), MakeTrainingData.bl_start_y (snd rep) + 25)
           (MakeTrainingData.right_border (snd le), MakeTrainingData.bl_start_y (snd rep) + 25)
           (MakeTrainingData.right_border (snd le), MakeTrainingData.bl_start_y (snd rep) - 25)
           (MakeTrainingData.left_border (snd fs), MakeTrainingData.bl_start_y (snd rep) - 25)).
  reflexivity.
Qed.


Lemma NoDup_three_keys : NoDup ["l0"; "l1"; "l2"]%string.
Proof.
  repeat constructor; simpl; intros H;
    repeat (destruct H as [H|H]; [discriminate H|]); exact H.
Qed.




Lemma keep_where_map {A B : Type} (g : A -> B) (want : bool) (flags : list bool) :
  forall l : list A, map g (keep_where want flags l) = keep_where want flags (map g l).
Proof.
  induction flags as [|f flags IH]; intros l; simpl; [reflexivity|].
  destruct l as [|x l]; simpl; [reflexivity|].
  destruct (Bool.eqb f want); simpl; rewrite IH; reflexivity.
Qed.

Lemma keep_where_in {A : Type} (want : bool) (flags : list bool) :
  forall (l : list A) (x : A), In x (keep_where want flags l) -> In x l.
Proof.
  induction flags as [|f flags IH]; intros l x; simpl; [contradiction|].
  destruct l as [|a l]; simpl; [contradiction|].
  destruct (Bool.eqb f want); simpl; intros H.
  - destruct H as [H|H]; [left; exact H | right; apply IH; exact H].
  - right. apply IH. exact H.
Qed.

(** On ascending ys, what survives is spaced by at least 40. *)
Lemma survivors_spaced (ys : list Z) :
  StronglySorted Z.le ys ->
  StronglySorted (fun a b => a + 40 <= b) (keep_where false (close_to_next ys) ys).
Proof.
  induction ys as [|y ys IH]; intros Hs.
  - constructor.
  - inversion Hs as [|? ? Hs' Hall]; subst. specialize (IH Hs').
    destruct ys as [|y' ys].
    + simpl. constructor; constructor.
    + change (close_to_next (y :: y' :: ys))
        with ((y' - y <? 40) :: close_to_next (y' :: ys)).
      cbn [keep_where Bool.eqb].
      destruct (Z.ltb_spec (y' - y) 40) as [Hlt|Hge]; cbn [Bool.eqb].
      * exact IH.
      * constructor; [exact IH|].
        apply Forall_forall. intros x Hx. apply keep_where_in in Hx.
        inversion Hs' as [|? ? _ Hall']; subst.
        destruct Hx as [<-|Hx]; [lia|].
        rewrite Forall_forall in Hall'. specialize (Hall' x Hx). lia.
Qed.





Lemma keep_where_last (d : dict Line) :
  forall ys : list Z,
    List.length ys = List.length d ->
    d <> [] ->
    exists front front' kv,
      d = front' ++ [kv] /\ keep_where false (close_to_next ys) d = front ++ [kv].
Proof.
  induction d as [|kv d IH]; intros ys Hlen Hne; [congruence|].
  destruct ys as [|y ys]; [discriminate Hlen|]. injection Hlen as Hlen.
  destruct d as [|kv' d].
  - destruct ys; [|discriminate Hlen]. exists [], [], kv. split; reflexivity.
  - destruct ys as [|y' ys]; [discriminate Hlen|].
    destruct (IH (y' :: ys) Hlen) as (front & front' & z & Hd & Hk); [discriminate|].
    change (close_to_next (y :: y' :: ys))
      with ((y' - y <? 40) :: close_to_next (y' :: ys)).
    cbn [keep_where]. rewrite Hk, Hd.
    destruct (y' - y <? 40); cbn [Bool.eqb].
    + exists front, (kv :: front'), z. split; reflexivity.
    + exists (kv :: front), (kv :: front'), z. split; reflexivity.
Qed.

(** C9: on a non-empty dictionary of lines, [rm_overlap] returns a
    non-empty dictionary whose last line is the last line it was given. *)
Theorem rm_overlap_keeps_last_line (d : dict Line) (ys : list Z) :
  d <> [] ->
  NoDup (map fst d) ->
  map (fun kv => reference_y (snd kv)) d = map Ok ys ->
  exists out front front' kv,
    MakeTrainingData.rm_overlap d = Ok out /\
    out <> [] /\
    d = front' ++ [kv] /\
    out = front ++ [kv].
Proof.
  intros Hne Hnd Hys.
  assert (Hlen : List.length ys = List.length d).
  { apply (f_equal (@List.length _)) in Hys. rewrite !length_map in Hys.
    symmetry. exact Hys. }
  destruct (keep_where_last d ys Hlen Hne) as (front & front' & kv & Hd & Hk).
  exists (keep_where false (close_to_next ys) d), front, front', kv.
  split; [apply rm_overlap_keeps; assumption|].
  split; [|split; assumption].
  rewrite Hk. intros E. destruct front; discriminate E.
Qed.

Lemma rm_overlap_keeps_last_line_witness :
  exists out front,
    MakeTrainingData.rm_overlap
      [("l0"%string, mkLine "0,525 9,525" "0,550 9,550 9,500 0,500");
       ("l1"%string, mkLine "0,555 9,555" "0,580 9,580 9,530 0,530");
       ("l2"%string, mkLine "0,565 9,565" "0,590 9,590 9,540 0,540")]
    = Ok out /\
    out = front ++ [("l2"%string, mkLine "0,565 9,565" "0,590 9,590 9,540 0,540")].
Proof.
  destruct (rm_overlap_keeps_last_line
              [("l0"%string, mkLine "0,525 9,525" "0,550 9,550 9,500 0,500");
               ("l1"%string, mkLine "0,555 9,555" "0,580 9,580 9,530 0,530");
               ("l2"%string, mkLine "0,565 9,565" "0,590 9,590 9,540 0,540")]
              [500; 530; 540])
    as (out & front & front' & kv & Hout & _ & Hd & Hk).
  - discriminate.
  - exact NoDup_three_keys.
  - reflexivity.
  - exists out, front. split; [exact Hout|].
    rewrite Hk. f_equal.
    change [("l0"%string, mkLine "0,525 9,525" "0,550 9,550 9,500 0,500");
            ("l1"%string, mkLine "0,555 9,555" "0,580 9,580 9,530 0,530");
            ("l2"%string, mkLine "0,565 9,565" "0,590 9,590 9,540 0,540")]
      with ([("l0"%string, mkLine "0,525 9,525" "0,550 9,550 9,500 0,500");
             ("l1"%string, mkLine "0,555 9,555" "0,580 9,580 9,530 0,530")]
              ++ [("l2"%string, mkLine "0,565 9,565" "0,590 9,590 9,540 0,540")]) in Hd.
    apply app_inj_tail in Hd. destruct Hd as [_ Hd]. rewrite Hd. reflexivity.
Defined.

(** ** Detection extraction *)

Lemma for_each_raises {A S : Type} (body : S -> A -> result S) (x : A) (l : list A) :
  In x l ->
  (forall s, exists e, body s x = Raise e) ->
  forall s, exists e, for_each body l s = Raise e.
Proof.
  induction l as [|a l IH]; intros Hin Hx s; [contradiction|].
  simpl. destruct Hin as [->|Hin].
  - destruct (Hx s) as (e & He). exists e. rewrite He. reflexivity.
  - destruct (body s a) as [s'|e]; simpl.
    + apply IH; assumption.
    + exists e. reflexivity.
Qed.

Lemma enumerate_from_in {A : Type} (x : A) (l : list A) :
  In x l -> forall i, exists j, In (j, x) (enumerate_from i l).
Proof.
  induction l as [|a l IH]; intros Hin i; [contradiction|].
  destruct Hin as [->|Hin].
  - exists i. left. reflexivity.
  - destruct (IH Hin (S i)) as (j & Hj). exists j. right. exact Hj.
Qed.

Lemma single_field (tok : string) :
  (List.length (get_coord tok) < 2)%nat -> exists f, split_on "," tok = [f].
Proof.
  unfold get_coord. pose proof (split_on_nonempty "," tok) as Hne.
  destruct (split_on "," tok) as [|f [|g fs]]; simpl; intros H; try congruence; try lia.
  exists f. reflexivity.
Qed.

Lemma get_poly_coord_single_field (tok : string) (poly : list string) :
  In tok poly -> (List.length (get_coord tok) < 2)%nat ->
  exists e, get_poly_coord poly = Raise e.
Proof.
  intros Hin Hlen. destruct (single_field tok Hlen) as (f & Hf).
  unfold get_poly_coord. apply for_each_raises with (x := tok); [exact Hin|].
  intros s. cbv zeta. rewrite Hf. cbn [item nth_error bind].
  destruct (Py.int f); cbn [bind]; eexists; reflexivity.
Qed.

Lemma collect_ys_single_field (tok : string) (coords : list string) :
  In tok coords -> (List.length (get_coord tok) < 2)%nat ->
  exists e, collect_ys coords = Raise e.
Proof.
  intros Hin Hlen. destruct (single_field tok Hlen) as (f & Hf).
  unfold collect_ys. apply for_each_raises with (x := tok); [exact Hin|].
  intros s. cbv zeta. unfold get_coord. rewrite Hf. cbn [item nth_error bind].
  eexists. reflexivity.
Qed.

Ltac step_or_raise :=
  match goal with
  | |- exists e, bind ?m _ = Raise e =>
      let E := fresh "E" in
      destruct m eqn:E; cbn [bind]; [|eexists; reflexivity]
  end.

Lemma create_box_step_single_field (left right : string) (boxes : dict MakeTrainingData.box)
      (i : nat) (line : TextLine) (tok : string) :
  In tok (split (Coords_points line) ++ split (Baseline_points line)) ->
  (List.length (get_coord tok) < 2)%nat ->
  exists e, MakeTrainingData.create_box_step left right boxes (i, line) = Raise e.
Proof.
  intros Hin Hlen. unfold MakeTrainingData.create_box_step.
  apply in_app_or in Hin. destruct Hin as [Hin|Hin].
  - destruct (get_poly_coord_single_field tok _ Hin Hlen) as (e & He).
    rewrite He. exists e. reflexivity.
  - do 4 step_or_raise.
    destruct (collect_ys_single_field tok _ Hin Hlen) as (e & He).
    unfold get_y_avg. rewrite He. exists e. reflexivity.
Qed.

(** C4 (as amended): when a coordinate token of a detection of the main
    region has a single comma-separated field, [create_box] raises an
    exception and returns no detection at all for the document; the failing
    detection is not skipped. *)
Theorem create_box_raises_on_single_field
        (regions : list TextRegion) (main_region : nat) (region : TextRegion)
        (line : TextLine) (tok : string) :
  get_main_region regions = Ok main_region ->
  item regions main_region = Ok region ->
  In line (text_lines region) ->
  In tok (split (Coords_points line) ++ split (Baseline_points line)) ->
  (List.length (get_coord tok) < 2)%nat ->
  exists e, MakeTrainingData.create_box regions = Raise e.
Proof.
  intros Hmain Hreg Hline Htok Hlen.
  unfold MakeTrainingData.create_box. rewrite Hmain, Hreg. cbn [bind].
  do 4 step_or_raise.
  destruct (enumerate_from_in line _ Hline 0%nat) as (j & Hj).
  apply for_each_raises with (x := (j, line)); [exact Hj|].
  intros s. apply create_box_step_single_field with (tok := tok); assumption.
Qed.

Lemma create_box_raises_on_single_field_witness :
  exists e,
    MakeTrainingData.create_box
      [mkTextRegion "50,10 50,900 1000,900 1000,10"
         [mkTextLine "100,520 900,520 900,480 100,480" "100,500 500,501 900,502";
          mkTextLine "100,620 900,620 900,580 100,580" "100,600 500 900,602"]]
    = Raise e.
Proof.
  apply (create_box_raises_on_single_field
           [mkTextRegion "50,10 50,900 1000,900 1000,10"
              [mkTextLine "100,520 900,520 900,480 100,480" "100,500 500,501 900,502";
               mkTextLine "100,620 900,620 900,580 100,580" "100,600 500 900,602"]]
           0%nat
           (mkTextRegion "50,10 50,900 1000,900 1000,10"
              [mkTextLine "100,520 900,520 900,480 100,480" "100,500 500,501 900,502";
               mkTextLine "100,620 900,620 900,580 100,580" "100,600 500 900,602"])
           (mkTextLine "100,620 900,620 900,580 100,580" "100,600 500 900,602")
           "500"%string).
  - reflexivity.
  - reflexivity.
  - simpl. right. left. reflexivity.
  - simpl. do 5 right. left. reflexivity.
  - simpl. lia.
Defined.

(** C4, counterexample: a page with one well-formed detection followed by
    one whose baseline has the token ["500"].  Alone, the first detection is
    extracted; with the second one present the whole call raises
    [IndexError] and nothing is returned. *)
Lemma create_box_does_not_skip_malformed :
  (exists b,
      MakeTrainingData.create_box
        [mkTextRegion "50,10 50,900 1000,900 1000,10"
           [mkTextLine "100,520 900,520 900,480 100,480" "100,500 500,501 900,502"]]
      = Ok [("box0"%string, b)]) /\
  MakeTrainingData.create_box
    [mkTextRegion "50,10 50,900 1000,900 1000,10"
       [mkTextLine "100,520 900,520 900,480 100,480" "100,500 500,501 900,502";
        mkTextLine "100,620 900,620 900,580 100,580" "100,600 500 900,602"]]
  = Raise IndexError /\
  ~ (exists boxes,
        MakeTrainingData.create_box
          [mkTextRegion "50,10 50,900 1000,900 1000,10"
             [mkTextLine "100,520 900,520 900,480 100,480" "100,500 500,501 900,502";
              mkTextLine "100,620 900,620 900,580 100,580" "100,600 500 900,602"]]
        = Ok boxes).
Proof.
  split; [eexists; reflexivity|]. split; [reflexivity|].
  intros (boxes & H). discriminate H.
Qed.

(** A token with more than two fields is no error: the fields after the
    second are ignored. *)
Example extra_fields_ignored :
  get_poly_coord ["1,2,3"; "4,5"]%string = Ok [(1, 2); (4, 5)] /\
  get_y_avg ["1,2,3"; "4,6"]%string = Ok (8 # 2).
Proof. split; reflexivity. Qed.

(** The extractor reaches [get_avg_height] with the vertices it has read,
    so a polygon of fewer than two vertices stops it with
    [ZeroDivisionError]. *)
Lemma create_box_step_short_polygon (left right : string) (boxes : dict MakeTrainingData.box)
      (i : nat) (line : TextLine) (poly : list (Z * Z)) :
  get_poly_coord (split (Coords_points line)) = Ok poly ->
  (List.length poly < 2)%nat ->
  MakeTrainingData.create_box_step left right boxes (i, line) = Raise ZeroDivisionError.
Proof.
  intros Hpoly Hlen. unfold MakeTrainingData.create_box_step.
  rewrite Hpoly. cbn [bind].
  rewrite (proj1 (get_avg_height_cases poly) Hlen). reflexivity.
Qed.

(** C10: with fewer than two vertices the pair count is zero and
    [get_avg_height] raises [ZeroDivisionError], which stops the extraction
    step of that detection; with two vertices or more it returns the floor
    of the paired differences over the pair count.  It is total exactly
    under the precondition of two vertices. *)
Theorem get_avg_height_needs_two_vertices (poly : list (Z * Z)) :
  ((List.length poly < 2)%nat -> get_avg_height poly = Raise ZeroDivisionError) /\
  ((List.length poly < 2)%nat ->
   forall left right boxes i line,
     get_poly_coord (split (Coords_points line)) = Ok poly ->
     MakeTrainingData.create_box_step left right boxes (i, line) = Raise ZeroDivisionError) /\
  ((2 <= List.length poly)%nat ->
   get_avg_height poly
   = Ok (paired_differences poly / Z.of_nat (List.length poly / 2))).
Proof.
  split; [apply get_avg_height_cases|]. split; [|apply get_avg_height_cases].
  intros Hlen left right boxes i line Hpoly.
  apply create_box_step_short_polygon with (poly := poly); assumption.
Qed.

Lemma get_avg_height_needs_two_vertices_witness :
  get_avg_height [(100, 520)] = Raise ZeroDivisionError /\
  MakeTrainingData.create_box_step "50" "1000" [] (0%nat, mkTextLine "100,520" "100,500 900,502")
  = Raise ZeroDivisionError /\
  get_avg_height [(100, 520); (900, 520); (900, 480); (100, 480)] = Ok 40.
Proof.
  split; [|split].
  - apply (proj1 (get_avg_height_needs_two_vertices [(100, 520)])). simpl. lia.
  - apply (proj1 (proj2 (get_avg_height_needs_two_vertices [(100, 520)]))).
    + simpl. lia.
    + reflexivity.
  - apply (proj2 (proj2 (get_avg_height_needs_two_vertices
                           [(100, 520); (900, 520); (900, 480); (100, 480)]))).
    simpl. lia.
Defined.


(** ** Dictionaries and sorting *)

Lemma setitem_fresh {V : Type} (d : dict V) (k : string) (v : V) :
  ~ In k (map fst d) -> setitem d k v = d ++ [(k, v)].
Proof.
  induction d as [|[k' v'] d IH]; simpl; intros Hk; [reflexivity|].
  destruct (String.eqb_spec k' k) as [->|Hne].
  - exfalso. apply Hk. left. reflexivity.
  - rewrite IH by (intros H; apply Hk; right; exact H). reflexivity.
Qed.

Lemma update_fresh {V : Type} (e : dict V) :
  forall d, NoDup (map fst (d ++ e)) -> update d e = d ++ e.
Proof.
  unfold update. induction e as [|[k v] e IH]; intros d Hnd; simpl.
  - rewrite app_nil_r. reflexivity.
  - rewrite setitem_fresh.
    + rewrite IH; rewrite <- app_assoc; [reflexivity | exact Hnd].
    + rewrite map_app in Hnd. simpl in Hnd. apply NoDup_remove_2 in Hnd.
      intros H. apply Hnd. apply in_or_app. left. exact H.
Qed.

Lemma dict_of_items_distinct {V : Type} (items : list (string * V)) :
  NoDup (map fst items) -> dict_of_items items = items.
Proof. intros H. unfold dict_of_items. rewrite update_fresh; [reflexivity | exact H]. Qed.

Lemma insert_by_perm {A : Type} (key : A -> Z) (x : A) (l : list A) :
  Permutation (insert_by Z.ltb key x l) (x :: l).
Proof.
  induction l as [|y l IH]; simpl; [apply Permutation_refl|].
  destruct (key y <? key x).
  - eapply perm_trans; [apply perm_skip; exact IH | apply perm_swap].
  - apply Permutation_refl.
Qed.

Lemma sorted_by_perm {A : Type} (key : A -> Z) (l : list A) :
  Permutation (sorted_by Z.ltb key l) l.
Proof.
  induction l as [|x l IH]; simpl; [apply perm_nil|].
  eapply perm_trans; [apply insert_by_perm | apply perm_skip; exact IH].
Qed.

Lemma insert_by_sorted {A : Type} (key : A -> Z) (x : A) (l : list A) :
  StronglySorted (fun a b => key a <= key b) l ->
  StronglySorted (fun a b => key a <= key b) (insert_by Z.ltb key x l).
Proof.
  induction 1 as [|y l Hs IH Hall]; simpl.
  - constructor; constructor.
  - destruct (Z.ltb_spec (key y) (key x)) as [Hlt|Hge].
    + constructor; [exact IH|].
      apply Forall_forall. intros z Hz.
      apply (Permutation_in _ (insert_by_perm key x l)) in Hz.
      destruct Hz as [<-|Hz]; [lia|].
      rewrite Forall_forall in Hall. apply Hall. exact Hz.
    + constructor; [constructor; assumption|].
      constructor; [exact Hge|].
      rewrite Forall_forall in *. intros z Hz. specialize (Hall z Hz). lia.
Qed.

Lemma sorted_by_sorted {A : Type} (key : A -> Z) (l : list A) :
  StronglySorted (fun a b => key a <= key b) (sorted_by Z.ltb key l).
Proof.
  induction l as [|x l IH]; simpl; [constructor | apply insert_by_sorted; exact IH].
Qed.

(** Sorting is stable: the items with a given key keep their order. *)
Lemma insert_by_same_key {A : Type} (key : A -> Z) (v : Z) (x : A) (l : list A) :
  filter (fun a => key a =? v) (insert_by Z.ltb key x l)
  = filter (fun a => key a =? v) (x :: l).
Proof.
  induction l as [|y l IH]; [reflexivity|].
  cbn [insert_by]. destruct (Z.ltb_spec (key y) (key x)) as [Hlt|Hge]; [|reflexivity].
  cbn [filter] in *. rewrite IH.
  destruct (Z.eqb_spec (key x) v) as [Ex|Ex]; [|reflexivity].
  destruct (Z.eqb_spec (key y) v) as [Ey|Ey]; [lia | reflexivity].
Qed.

Lemma sorted_by_same_key {A : Type} (key : A -> Z) (v : Z) (l : list A) :
  filter (fun a => key a =? v) (sorted_by Z.ltb key l) = filter (fun a => key a =? v) l.
Proof.
  induction l as [|x l IH]; [reflexivity|].
  cbn [sorted_by fold_right]. rewrite insert_by_same_key.
  cbn [filter]. fold (sorted_by Z.ltb key l). rewrite IH. reflexivity.
Qed.

Lemma perm_keys_distinct {V : Type} (d d' : dict V) :
  Permutation d d' -> NoDup (map fst d') -> NoDup (map fst d).
Proof.
  intros Hp Hnd. apply Permutation_NoDup with (l := map fst d'); [|exact Hnd].
  apply Permutation_map. apply Permutation_sym. exact Hp.
Qed.

(** ** Clusters of a dictionary of boxes *)

Lemma first_seen_in (l : list Z) (a : Z) : In a (first_seen l) <-> In a l.
Proof.
  induction l as [|b l IH]; simpl; [tauto|].
  rewrite filter_In, IH, negb_true_iff, Z.eqb_neq.
  destruct (Z.eq_dec b a) as [->|Hne]; [tauto|].
  split; [tauto|]. intros [H|H]; [contradiction | right; split; [exact H | congruence]].
Qed.

Lemma first_seen_distinct (l : list Z) : NoDup (first_seen l).
Proof.
  induction l as [|b l IH]; simpl; [constructor|].
  constructor; [|apply NoDup_filter; exact IH].
  rewrite filter_In, negb_true_iff, Z.eqb_neq. intros [_ H]. congruence.
Qed.

Lemma filter_all {A : Type} (p : A -> bool) (l : list A) :
  (forall x, In x l -> p x = true) -> filter p l = l.
Proof.
  induction l as [|x l IH]; simpl; intros H; [reflexivity|].
  rewrite (H x) by (left; reflexivity). f_equal. apply IH.
  intros y Hy. apply H. right. exact Hy.
Qed.

Lemma filter_none {A : Type} (p : A -> bool) (l : list A) :
  (forall x, In x l -> p x = false) -> filter p l = [].
Proof.
  induction l as [|x l IH]; simpl; intros H; [reflexivity|].
  rewrite (H x) by (left; reflexivity). apply IH.
  intros y Hy. apply H. right. exact Hy.
Qed.

Lemma first_seen_snoc (l : list Z) (a : Z) :
  first_seen (l ++ [a])
  = if existsb (Z.eqb a) l then first_seen l else first_seen l ++ [a].
Proof.
  induction l as [|b l IH]; [reflexivity|].
  cbn [app first_seen existsb]. rewrite IH.
  destruct (Z.eqb_spec a b) as [->|Hne]; cbn [orb].
  - destruct (existsb (Z.eqb b) l); [reflexivity|].
    rewrite filter_app. cbn [filter]. rewrite Z.eqb_refl. cbn [negb].
    rewrite app_nil_r. reflexivity.
  - destruct (existsb (Z.eqb a) l); [reflexivity|].
    rewrite filter_app. cbn [filter].
    destruct (Z.eqb_spec a b) as [E|_]; [contradiction|]. reflexivity.
Qed.

Lemma existsb_eqb_in (a : Z) (l : list Z) : existsb (Z.eqb a) l = true <-> In a l.
Proof.
  rewrite existsb_exists. split.
  - intros (x & Hx & E). apply Z.eqb_eq in E. subst x. exact Hx.
  - intros H. exists a. split; [exact H | apply Z.eqb_refl].
Qed.

Lemma group_append_present {A : Type} (f : Z -> list A) (k : Z) (x : A) (vs : list Z) :
  NoDup vs -> In k vs ->
  group_append (map (fun v => (v, f v)) vs) k x
  = map (fun v => (v, if v =? k then f v ++ [x] else f v)) vs.
Proof.
  induction vs as [|v vs IH]; intros Hnd Hin; [contradiction|].
  inversion Hnd as [|? ? Hv Hnd']; subst.
  cbn [map group_append]. destruct (Z.eqb_spec v k) as [->|Hne].
  - f_equal. apply map_ext_in. intros w Hw.
    destruct (Z.eqb_spec w k) as [->|_]; [contradiction | reflexivity].
  - f_equal. apply IH; [exact Hnd'|]. destruct Hin as [E|Hin]; [contradiction | exact Hin].
Qed.

Lemma group_append_absent {A : Type} (f : Z -> list A) (k : Z) (x : A) (vs : list Z) :
  ~ In k vs ->
  group_append (map (fun v => (v, f v)) vs) k x
  = map (fun v => (v, f v)) vs ++ [(k, [x])].
Proof.
  induction vs as [|v vs IH]; intros Hin; [reflexivity|].
  cbn [map group_append]. destruct (Z.eqb_spec v k) as [->|Hne].
  - exfalso. apply Hin. left. reflexivity.
  - cbn [app]. f_equal. apply IH. intros H. apply Hin. right. exact H.
Qed.

Lemma flat_map_agree {A B : Type} (g h : A -> list B) (l : list A) :
  (forall x, In x l -> g x = h x) -> flat_map g l = flat_map h l.
Proof.
  induction l as [|x l IH]; simpl; intros H; [reflexivity|].
  rewrite (H x) by (left; reflexivity). f_equal. apply IH.
  intros y Hy. apply H. right. exact Hy.
Qed.

Section Clusters.

Context {V : Type} (li : V -> Z).

Lemma cluster_snoc (v : Z) (boxes : dict V) (kb : string * V) :
  cluster li v (boxes ++ [kb])
  = cluster li v boxes ++ (if li (snd kb) =? v then [kb] else []).
Proof. unfold cluster. rewrite filter_app. reflexivity. Qed.

Lemma cluster_absent (v : Z) (boxes : dict V) :
  ~ In v (map (fun kb => li (snd kb)) boxes) -> cluster li v boxes = [].
Proof.
  intros H. apply filter_none. intros kb Hkb. apply Z.eqb_neq. intros E.
  apply H. rewrite <- E. apply (in_map (fun kb => li (snd kb))). exact Hkb.
Qed.

(** The grouping loop yields, for each indicator in the order first seen,
    the keys of its cluster in dictionary order. *)
Lemma grouping_loop (boxes : dict V) :
  fold_left (fun res kb => group_append res (li (snd kb)) (fst kb)) boxes []
  = map (fun v => (v, map fst (cluster li v boxes)))
        (first_seen (map (fun kb => li (snd kb)) boxes)).
Proof.
  induction boxes as [|kb boxes IH] using rev_ind; [reflexivity|].
  rewrite fold_left_app. cbn [fold_left]. rewrite IH.
  rewrite map_app. cbn [map]. rewrite first_seen_snoc.
  set (vs := first_seen (map (fun kb => li (snd kb)) boxes)).
  destruct (existsb (Z.eqb (li (snd kb))) (map (fun kb => li (snd kb)) boxes)) eqn:E.
  - apply existsb_eqb_in in E. apply (proj2 (first_seen_in _ _)) in E.
    rewrite (group_append_present (fun v => map fst (cluster li v boxes)));
      [|apply first_seen_distinct | exact E].
    apply map_ext. intros v. rewrite cluster_snoc, map_app, Z.eqb_sym.
    destruct (li (snd kb) =? v); [reflexivity | rewrite app_nil_r; reflexivity].
  - assert (Hnot : ~ In (li (snd kb)) (map (fun kb => li (snd kb)) boxes)).
    { intros H. apply existsb_eqb_in in H. congruence. }
    rewrite (group_append_absent (fun v => map fst (cluster li v boxes)));
      [|intros H; apply Hnot; apply first_seen_in; exact H].
    rewrite map_app. cbn [map]. f_equal.
    + apply map_ext_in. intros v Hv. rewrite cluster_snoc.
      destruct (Z.eqb_spec (li (snd kb)) v) as [Ev|_].
      * exfalso. apply Hnot. rewrite Ev. apply first_seen_in. exact Hv.
      * rewrite app_nil_r. reflexivity.
    + rewrite cluster_snoc, Z.eqb_refl, (cluster_absent _ _ Hnot). reflexivity.
Qed.

Lemma cluster_keys_distinct (v : Z) (boxes : dict V) :
  NoDup (map fst boxes) -> NoDup (map fst (cluster li v boxes)).
Proof.
  unfold cluster. induction boxes as [|kb boxes IH]; simpl; intros Hnd; [constructor|].
  inversion Hnd as [|? ? Hk Hnd']; subst.
  destruct (li (snd kb) =? v); [|apply IH; exact Hnd'].
  simpl. constructor; [|apply IH; exact Hnd'].
  intros H. apply Hk. apply in_map_iff in H. destruct H as (x & Ex & Hx).
  apply filter_In in Hx. apply in_map_iff. exists x. tauto.
Qed.


Lemma flat_map_pick {B : Type} (g : Z -> list B) (a : Z) (vs : list Z) :
  NoDup vs -> In a vs ->
  Permutation (g a ++ flat_map g (filter (fun b => negb (b =? a)) vs)) (flat_map g vs).
Proof.
  induction vs as [|b vs IH]; intros Hnd Hin; [contradiction|].
  inversion Hnd as [|? ? Hb Hnd']; subst.
  cbn [filter flat_map]. destruct (Z.eqb_spec b a) as [->|Hne]; cbn [negb].
  - rewrite filter_all; [apply Permutation_refl|].
    intros x Hx. apply negb_true_iff, Z.eqb_neq. intros ->. contradiction.
  - cbn [flat_map]. destruct Hin as [E|Hin]; [contradiction|].
    eapply perm_trans; [apply Permutation_app_swap_app|].
    apply Permutation_app_head. apply IH; assumption.
Qed.

(** The clusters, taken in the order first seen, hold every entry once. *)
Lemma clusters_partition (boxes : dict V) :
  Permutation (flat_map (fun v => cluster li v boxes)
                        (first_seen (map (fun kb => li (snd kb)) boxes)))
              boxes.
Proof.
  induction boxes as [|kb boxes IH]; [apply perm_nil|].
  cbn [map first_seen flat_map].
  set (a := li (snd kb)). set (vs := first_seen (map (fun kb => li (snd kb)) boxes)) in *.
  assert (Hhead : cluster li a (kb :: boxes) = kb :: cluster li a boxes).
  { unfold cluster. cbn [filter]. fold a. rewrite Z.eqb_refl. reflexivity. }
  rewrite Hhead. cbn [app]. apply perm_skip.
  rewrite (flat_map_agree (fun v => cluster li v (kb :: boxes))
                          (fun v => cluster li v boxes)).
  2:{ intros v Hv. apply filter_In in Hv. destruct Hv as [_ Hv].
      apply negb_true_iff, Z.eqb_neq in Hv.
      unfold cluster. cbn [filter]. fold a.
      destruct (Z.eqb_spec a v) as [E|_]; [congruence | reflexivity]. }
  destruct (in_dec Z.eq_dec a vs) as [Hin|Hnot].
  - eapply perm_trans; [|exact IH].
    apply (flat_map_pick (fun v => cluster li v boxes) a vs);
      [apply first_seen_distinct | exact Hin].
  - rewrite filter_all.
    + rewrite cluster_absent; [exact IH|].
      intros H. apply Hnot. apply first_seen_in. exact H.
    + intros x Hx. apply negb_true_iff, Z.eqb_neq. intros ->. contradiction.
Qed.

End Clusters.


(** ** Sorting the boxes and simplifying the clusters *)

Lemma perm_flat_map {A B : Type} (g h : A -> list B) (l : list A) :
  (forall x, Permutation (g x) (h x)) -> Permutation (flat_map g l) (flat_map h l).
Proof.
  intros H. induction l as [|x l IH]; simpl; [apply perm_nil|].
  apply Permutation_app; [apply H | exact IH].
Qed.

Lemma ordered_clusters_partition (boxes : dict MakeTrainingData.box) :
  Permutation (flat_map (ordered_cluster boxes) (indicators boxes)) boxes.
Proof.
  eapply perm_trans; [|apply (clusters_partition MakeTrainingData.line_indicator)].
  apply perm_flat_map. intros v. apply sorted_by_perm.
Qed.

Lemma sub_box_of_entries (boxes : dict MakeTrainingData.box) :
  NoDup (map fst boxes) ->
  forall l acc,
    (forall kb, In kb l -> In kb boxes) ->
    NoDup (map fst (acc ++ l)) ->
    for_each (fun sub_box key =>
                b <- getitem boxes key ;;
                Ok (setitem sub_box key b))
             (map fst l) acc
    = Ok (acc ++ l).
Proof.
  intros Hnd. induction l as [|[k b] l IH]; intros acc Hin Hd; simpl.
  - rewrite app_nil_r. reflexivity.
  - rewrite (getitem_in boxes k b Hnd) by (apply Hin; left; reflexivity). cbn [bind].
    rewrite setitem_fresh.
    + rewrite IH.
      * rewrite <- app_assoc. reflexivity.
      * intros kb Hkb. apply Hin. right. exact Hkb.
      * rewrite <- app_assoc. exact Hd.
    + rewrite map_app in Hd. simpl in Hd. apply NoDup_remove_2 in Hd.
      intros H. apply Hd. apply in_or_app. left. exact H.
Qed.

Lemma sub_box_of_cluster (boxes : dict MakeTrainingData.box) (v : Z) :
  NoDup (map fst boxes) ->
  MakeTrainingData.sub_box_of boxes
    (map fst (cluster MakeTrainingData.line_indicator v boxes))
  = Ok (cluster MakeTrainingData.line_indicator v boxes).
Proof.
  intros Hnd. unfold MakeTrainingData.sub_box_of.
  rewrite (sub_box_of_entries boxes Hnd); [reflexivity | |].
  - intros kb Hkb. apply filter_In in Hkb. tauto.
  - apply cluster_keys_distinct. exact Hnd.
Qed.

Lemma horizontal_sort_loop (boxes : dict MakeTrainingData.box) :
  NoDup (map fst boxes) ->
  forall rest acc,
    NoDup (map fst (acc ++ flat_map (ordered_cluster boxes) rest)) ->
    for_each (fun sorted_box kre =>
                sub_box <- MakeTrainingData.sub_box_of boxes (snd kre) ;;
                let sorted_sub_box :=
                  dict_of_items
                    (sorted_by Z.ltb (fun x => MakeTrainingData.bl_start_x (snd x)) sub_box) in
                Ok (update sorted_box sorted_sub_box))
             (map (fun v => (v, map fst (cluster MakeTrainingData.line_indicator v boxes)))
                  rest)
             acc
    = Ok (acc ++ flat_map (ordered_cluster boxes) rest).
Proof.
  intros Hnd. induction rest as [|v rest IH]; intros acc Hd.
  - simpl. rewrite app_nil_r. reflexivity.
  - cbn [map for_each snd flat_map] in *.
    rewrite (sub_box_of_cluster boxes v Hnd). cbn [bind]. cbv zeta.
    fold (ordered_cluster boxes v).
    rewrite app_assoc in Hd.
    assert (Hd' : NoDup (map fst (acc ++ ordered_cluster boxes v))).
    { rewrite map_app in Hd. apply NoDup_app_remove_r in Hd. exact Hd. }
    rewrite dict_of_items_distinct.
    + rewrite (update_fresh _ _ Hd'). rewrite (IH _ Hd).
      rewrite <- app_assoc. reflexivity.
    + rewrite map_app in Hd'. apply NoDup_app_remove_l in Hd'. exact Hd'.
Qed.

Lemma horizontal_sort_clusters (boxes : dict MakeTrainingData.box) :
  NoDup (map fst boxes) ->
  MakeTrainingData.horizontal_sort boxes
  = Ok (flat_map (ordered_cluster boxes) (indicators boxes)).
Proof.
  intros Hnd. unfold MakeTrainingData.horizontal_sort, MakeTrainingData.group_keys.
  cbv zeta. rewrite (grouping_loop MakeTrainingData.line_indicator boxes).
  fold (indicators boxes).
  apply (horizontal_sort_loop boxes Hnd (indicators boxes) []).
  apply (perm_keys_distinct _ boxes); [|exact Hnd].
  apply ordered_clusters_partition.
Qed.



(** On a non-empty cluster [line_simplification] returns; the line it may
    emit is keyed by the counter and readable by [rm_overlap]. *)
Lemma line_simplification_entry (sub_box : dict MakeTrainingData.box) (n : nat) :
  sub_box <> [] ->
  exists r,
    MakeTrainingData.line_simplification sub_box n = Ok r /\
    forall entry,
      r = Some entry ->
      fst entry = line_key n /\
      exists rep, In rep sub_box /\
                  reference_y (snd entry) = Ok (MakeTrainingData.bl_start_y (snd rep) - 25).
Proof.
  intros Hne.
  destruct (line_simplification_fixed_band sub_box n Hne)
    as (fs & le & rep & _ & _ & Prep & Hls).
  cbv zeta in Hls.
  match type of Hls with _ = Ok (if ?c then _ else _) => destruct c end.
  - eexists. split; [exact Hls|].
    intros entry E. injection E as <-. cbn [fst snd]. split; [reflexivity|].
    destruct (reference_y_emitted_line sub_box n _ _ Hls) as (rep' & Prep' & Hy).
    exists rep'. split; [|exact Hy].
    destruct Prep' as (l1 & l2 & -> & _). apply in_or_app. right. left. reflexivity.
  - exists None. split; [exact Hls|]. intros entry E. discriminate E.
Qed.

Lemma emitted_line_cases (boxes : dict MakeTrainingData.box) (i : nat) (v : Z) :
  cluster MakeTrainingData.line_indicator v boxes <> [] ->
  exists r,
    MakeTrainingData.line_simplification
      (cluster MakeTrainingData.line_indicator v boxes) i = Ok r /\
    emitted_line boxes (i, v) = match r with Some entry => [entry] | None => [] end.
Proof.
  intros Hne. destruct (line_simplification_entry _ i Hne) as (r & Hr & _).
  exists r. split; [exact Hr|].
  unfold emitted_line. cbn [fst snd]. rewrite Hr. reflexivity.
Qed.






Lemma enumerate_from_nth {A : Type} (l : list A) :
  forall c i x, In (i, x) (enumerate_from c l) ->
                (c <= i)%nat /\ nth_error l (i - c) = Some x.
Proof.
  induction l as [|a l IH]; intros c i x Hin; [contradiction|].
  destruct Hin as [E|Hin].
  - injection E as <- <-. split; [lia|]. rewrite Nat.sub_diag. reflexivity.
  - destruct (IH _ _ _ Hin) as [Hle Hn]. split; [lia|].
    replace (i - c)%nat with (S (i - S c)) by lia. exact Hn.
Qed.




(** ** Reading order *)

Lemma StronglySorted_app {A : Type} (R : A -> A -> Prop) (l1 l2 : list A) :
  StronglySorted R l1 -> StronglySorted R l2 ->
  (forall a b, In a l1 -> In b l2 -> R a b) ->
  StronglySorted R (l1 ++ l2).
Proof.
  induction 1 as [|x l1 Hs IH Hall]; intros H2 Hcross; simpl; [exact H2|].
  constructor.
  - apply IH; [exact H2|]. intros a b Ha Hb. apply Hcross; [right; exact Ha | exact Hb].
  - apply Forall_app. split; [exact Hall|].
    apply Forall_forall. intros b Hb. apply Hcross; [left; reflexivity | exact Hb].
Qed.

Lemma StronglySorted_in {A : Type} (R R' : A -> A -> Prop) (l : list A) :
  (forall a b, In a l -> In b l -> R a b -> R' a b) ->
  StronglySorted R l -> StronglySorted R' l.
Proof.
  intros H Hs. induction Hs as [|x l Hs IH Hall]; [constructor|].
  constructor.
  - apply IH. intros a b Ha Hb. apply H; right; assumption.
  - rewrite Forall_forall in *. intros b Hb.
    apply H; [left; reflexivity | right; exact Hb | apply Hall; exact Hb].
Qed.

Lemma StronglySorted_filter {A : Type} (R : A -> A -> Prop) (p : A -> bool) (l : list A) :
  StronglySorted R l -> StronglySorted R (filter p l).
Proof.
  induction 1 as [|x l Hs IH Hall]; simpl; [constructor|].
  destruct (p x); [|exact IH]. constructor; [exact IH|].
  rewrite Forall_forall in *. intros b Hb. apply filter_In in Hb. apply Hall. tauto.
Qed.

Lemma StronglySorted_map {A B : Type} (R : B -> B -> Prop) (f : A -> B) (l : list A) :
  StronglySorted (fun a b => R (f a) (f b)) l -> StronglySorted R (map f l).
Proof.
  induction 1 as [|x l Hs IH Hall]; simpl; constructor; [exact IH|].
  rewrite Forall_forall in *. intros b Hb. apply in_map_iff in Hb.
  destruct Hb as (a & <- & Ha). apply Hall. exact Ha.
Qed.

Lemma first_seen_ascending (l : list Z) :
  StronglySorted Z.le l -> StronglySorted Z.lt (first_seen l).
Proof.
  induction 1 as [|a l Hs IH Hall]; simpl; [constructor|].
  constructor; [apply StronglySorted_filter; exact IH|].
  rewrite Forall_forall in *. intros b Hb. apply filter_In in Hb.
  destruct Hb as [Hb Hne]. apply negb_true_iff, Z.eqb_neq in Hne.
  apply (proj1 (first_seen_in _ _)) in Hb. specialize (Hall b Hb). lia.
Qed.

Lemma vertical_sort_sorted_by (boxes : dict MakeTrainingData.box) :
  NoDup (map fst boxes) ->
  MakeTrainingData.vertical_sort boxes
  = sorted_by Z.ltb (fun x => MakeTrainingData.line_indicator (snd x)) boxes.
Proof.
  intros Hnd. unfold MakeTrainingData.vertical_sort. cbv zeta.
  apply dict_of_items_distinct.
  apply (perm_keys_distinct _ boxes); [apply sorted_by_perm | exact Hnd].
Qed.

Lemma ordered_cluster_members (boxes : dict MakeTrainingData.box) (v : Z)
      (kb : string * MakeTrainingData.box) :
  In kb (ordered_cluster boxes v) ->
  In kb boxes /\ MakeTrainingData.line_indicator (snd kb) = v.
Proof.
  intros H. apply (Permutation_in _ (sorted_by_perm _ _)) in H.
  apply filter_In in H. destruct H as [H E]. apply Z.eqb_eq in E. tauto.
Qed.

Lemma ordered_clusters_reading_order (boxes : dict MakeTrainingData.box) (vs : list Z) :
  StronglySorted Z.lt vs ->
  StronglySorted reading_order (flat_map (ordered_cluster boxes) vs).
Proof.
  induction 1 as [|v vs Hs IH Hall]; simpl; [constructor|].
  apply StronglySorted_app; [| exact IH |].
  - apply StronglySorted_in
      with (R := fun a b => MakeTrainingData.bl_start_x (snd a)
                            <= MakeTrainingData.bl_start_x (snd b));
      [|apply sorted_by_sorted].
    intros a b Ha Hb Hab. right. split; [|exact Hab].
    apply ordered_cluster_members in Ha, Hb. destruct Ha as [_ ->], Hb as [_ ->].
    reflexivity.
  - intros a b Ha Hb. left. apply ordered_cluster_members in Ha. destruct Ha as [_ ->].
    apply in_flat_map in Hb. destruct Hb as (w & Hw & Hb).
    apply ordered_cluster_members in Hb. destruct Hb as [_ ->].
    rewrite Forall_forall in Hall. apply Hall. exact Hw.
Qed.

Lemma sorted_page (boxes : dict MakeTrainingData.box) :
  NoDup (map fst boxes) ->
  exists hs,
    MakeTrainingData.horizontal_sort (MakeTrainingData.vertical_sort boxes) = Ok hs /\
    Permutation hs boxes /\
    StronglySorted reading_order hs.
Proof.
  intros Hnd. rewrite (vertical_sort_sorted_by boxes Hnd).
  set (vs := sorted_by Z.ltb (fun x => MakeTrainingData.line_indicator (snd x)) boxes).
  assert (Hp : Permutation vs boxes) by apply sorted_by_perm.
  assert (Hnd' : NoDup (map fst vs)) by (apply (perm_keys_distinct _ boxes); assumption).
  eexists. split; [apply horizontal_sort_clusters; exact Hnd'|]. split.
  - eapply perm_trans; [apply ordered_clusters_partition | exact Hp].
  - apply ordered_clusters_reading_order. apply first_seen_ascending.
    apply StronglySorted_map. apply sorted_by_sorted.
Qed.

(** ** From the sorted boxes to separated lines *)




(** ** What [create_box] returns *)

Lemma trunc_between (a b : Z) (q : Q) :
  (inject_Z a < q)%Q -> (q <= inject_Z b)%Q -> a <= trunc q <= b.
Proof.
  destruct q as [n d]. unfold Qlt, Qle, trunc. cbn [Qnum Qden inject_Z].
  intros Ha Hb.
  pose proof (Z.quot_rem' n (Zpos d)) as Hqr.
  pose proof (Z.rem_bound_abs n (Zpos d)) as Hr.
  assert (Hr' : Z.abs (Z.rem n (Z.pos d)) < Z.pos d) by (apply Hr; lia).
  set (r := Z.rem n (Z.pos d)) in *. set (t := Z.quot n (Z.pos d)) in *.
  split; nia.
Qed.

Lemma box_on_grid (coords : list string) (y : Q) (indicator : Z) :
  get_y_avg coords = Ok y ->
  MakeTrainingData.get_line_indicator coords = Ok indicator ->
  (60 | indicator) /\ indicator - 30 <= trunc y <= indicator + 30.
Proof.
  intros Hy Hli. rewrite (get_line_indicator_60 coords y Hy) in Hli.
  injection Hli as <-.
  destruct (vertical_bucket_rule_window 30 60 y) as (Hdiv & Hlo & Hhi); [lia|].
  split; [exact Hdiv|].
  apply trunc_between; [exact Hlo | exact Hhi].
Qed.

(** One successful pass of the loop of [create_box]: the box it appends. *)
Lemma create_box_step_ok (left right : string) (boxes out : dict MakeTrainingData.box)
      (i : nat) (line : TextLine) :
  MakeTrainingData.create_box_step left right boxes (i, line) = Ok out ->
  exists b,
    out = boxes ++ [(("box" ++ str (Z.of_nat i))%string, b)] /\
    Py.int left = Ok (MakeTrainingData.left_border b) /\
    Py.int right = Ok (MakeTrainingData.right_border b) /\
    MakeTrainingData.bl_end_y b = MakeTrainingData.bl_start_y b /\
    on_grid b /\
    (forall k, 0 <= k ->
               root_gt_int (MakeTrainingData.bl_length b) k
               = (k <? Z.abs (MakeTrainingData.bl_end_x b - MakeTrainingData.bl_start_x b))) /\
    (exists poly, get_poly_coord (split (Coords_points line)) = Ok poly /\
                  (2 <= List.length poly)%nat /\
                  get_avg_height poly = Ok (MakeTrainingData.avg_height b)).
Proof.
  unfold MakeTrainingData.create_box_step. intros H.
  apply bind_ok_inv in H. destruct H as (poly & Hpoly & H).
  apply bind_ok_inv in H. destruct H as (height & Hheight & H).
  apply bind_ok_inv in H. destruct H as (first & _ & H).
  apply bind_ok_inv in H. destruct H as (final & _ & H).
  apply bind_ok_inv in H. destruct H as (y & Hy & H).
  apply bind_ok_inv in H. destruct H as (indicator & Hli & H).
  apply bind_ok_inv in H. destruct H as (sx & _ & H).
  apply bind_ok_inv in H. destruct H as (start_x & _ & H).
  apply bind_ok_inv in H. destruct H as (ex & _ & H).
  apply bind_ok_inv in H. destruct H as (end_x & _ & H).
  apply bind_ok_inv in H. destruct H as (l & Hl & H).
  apply bind_ok_inv in H. destruct H as (r & Hr & H).
  injection H as <-. eexists. split; [reflexivity|].
  cbn [MakeTrainingData.left_border MakeTrainingData.right_border
       MakeTrainingData.bl_end_y MakeTrainingData.bl_start_y
       MakeTrainingData.bl_length MakeTrainingData.bl_end_x MakeTrainingData.bl_start_x
       MakeTrainingData.avg_height].
  split; [exact Hl|]. split; [exact Hr|]. split; [reflexivity|]. split; [|split].
  - unfold on_grid. cbn [MakeTrainingData.line_indicator MakeTrainingData.bl_start_y].
    exact (box_on_grid _ _ _ Hy Hli).
  - intros k Hk. unfold root_gt_int, get_baseline_length. cbn [radicand].
    replace (k <? 0) with false by (symmetry; apply Z.ltb_ge; exact Hk).
    cbn [orb].
    rewrite (Qltb_compat_r _ _ (inject_Z ((start_x - end_x) * (start_x - end_x)))).
    + rewrite Qltb_inject_Z.
      destruct (Z.ltb_spec (k * k) ((start_x - end_x) * (start_x - end_x)));
        destruct (Z.ltb_spec k (Z.abs (end_x - start_x))); try reflexivity; nia.
    + rewrite inject_Z_mult. unfold Zminus. rewrite inject_Z_plus, inject_Z_opp.
      simpl Qpower. ring.
  - exists poly. split; [exact Hpoly|].
    destruct (le_lt_dec 2 (List.length poly)) as [Hge|Hlt].
    + split; [exact Hge | exact Hheight].
    + rewrite (proj1 (get_avg_height_cases poly) Hlt) in Hheight. discriminate Hheight.
Qed.

Lemma create_box_loop (left right : string) (lines : list TextLine) :
  forall (i : nat) (acc out : dict MakeTrainingData.box),
    for_each (MakeTrainingData.create_box_step left right) (enumerate_from i lines) acc
    = Ok out ->
    exists new,
      out = acc ++ new /\
      map fst new = map (fun j => ("box" ++ str (Z.of_nat j))%string)
                        (seq i (List.length lines)) /\
      forall kb, In kb new ->
                 Py.int left = Ok (MakeTrainingData.left_border (snd kb)) /\
                 Py.int right = Ok (MakeTrainingData.right_border (snd kb)) /\
                 MakeTrainingData.bl_end_y (snd kb) = MakeTrainingData.bl_start_y (snd kb) /\
                 on_grid (snd kb).
Proof.
  induction lines as [|line lines IH]; intros i acc out H.
  - injection H as <-. exists []. rewrite app_nil_r.
    split; [reflexivity|]. split; [reflexivity|]. intros kb [].
  - cbn [enumerate_from for_each] in H.
    apply bind_ok_inv in H. destruct H as (mid & Hstep & H).
    destruct (create_box_step_ok _ _ _ _ _ _ Hstep) as (b & -> & Hl & Hr & Hy & Hg & _).
    destruct (IH _ _ _ H) as (new & -> & Hkeys & Hnew).
    exists ((("box" ++ str (Z.of_nat i))%string, b) :: new).
    split; [rewrite <- app_assoc; reflexivity|]. split.
    + cbn [map List.length seq fst]. rewrite Hkeys. reflexivity.
    + intros kb [<-|Hin]; [cbn [snd]; auto | apply Hnew; exact Hin].
Qed.


(** ** The main region *)

Lemma Natltb_trans (a b c : nat) :
  Nat.ltb a b = true -> Nat.ltb b c = true -> Nat.ltb a c = true.
Proof. rewrite !Nat.ltb_lt. lia. Qed.

Lemma Natltb_not_trans (a b c : nat) :
  Nat.ltb a b = false -> Nat.ltb b c = false -> Nat.ltb a c = false.
Proof. rewrite !Nat.ltb_ge. lia. Qed.

Lemma index_of_first (m : nat) (l1 l2 : list nat) :
  (forall x, In x l1 -> x <> m) -> index_of m (l1 ++ m :: l2) = Ok (List.length l1).
Proof.
  induction l1 as [|a l1 IH]; intros H; simpl.
  - rewrite Nat.eqb_refl. reflexivity.
  - destruct (Nat.eqb_spec a m) as [E|_]; [exfalso; apply (H a); [left; reflexivity | exact E]|].
    rewrite IH by (intros x Hx; apply H; right; exact Hx). reflexivity.
Qed.

Lemma get_main_region_cases (regions : list TextRegion) :
  (regions = [] -> get_main_region regions = Raise ValueError) /\
  (regions <> [] ->
   exists i region,
     get_main_region regions = Ok i /\
     nth_error regions i = Some region /\
     (forall r, In r regions ->
                (List.length (text_lines r) <= List.length (text_lines region))%nat) /\
     (forall j r, (j < i)%nat -> nth_error regions j = Some r ->
                  (List.length (text_lines r) < List.length (text_lines region))%nat)).
Proof.
  split; [intros ->; reflexivity|]. intros Hne.
  unfold get_main_region, max_of.
  set (f := fun region => List.length (text_lines region)).
  destruct (max_by_first_greatest Nat.ltb (fun x => x) Natltb_trans Natltb_not_trans
              (map f regions)) as (m & Hm & l1 & l2 & Hl & H1 & H2).
  { intros E. apply map_eq_nil in E. contradiction. }
  rewrite Hm. cbn [bind]. rewrite Hl.
  rewrite index_of_first
    by (intros x Hx E; specialize (H1 x Hx); apply Nat.ltb_lt in H1; lia).
  apply map_eq_app in Hl. destruct Hl as (r1 & rest & -> & Hr1 & Hrest).
  apply map_eq_cons in Hrest. destruct Hrest as (region & r2 & -> & Hreg & Hr2).
  exists (List.length l1), region.
  assert (Hlen : List.length l1 = List.length r1) by (rewrite <- Hr1; apply length_map).
  split; [reflexivity|]. split; [|split].
  - rewrite Hlen, nth_error_app2, Nat.sub_diag by lia. reflexivity.
  - intros r Hr. fold (f r). fold (f region). rewrite Hreg.
    apply in_app_or in Hr. destruct Hr as [Hr|[<-|Hr]].
    + assert (Hin : In (f r) l1) by (rewrite <- Hr1; apply in_map; exact Hr).
      specialize (H1 _ Hin). apply Nat.ltb_lt in H1. lia.
    + lia.
    + assert (Hin : In (f r) l2) by (rewrite <- Hr2; apply in_map; exact Hr).
      specialize (H2 _ Hin). apply Nat.ltb_ge in H2. exact H2.
  - intros j r Hj Hnth. fold (f r). fold (f region). rewrite Hreg.
    rewrite nth_error_app1 in Hnth by lia.
    assert (Hin : In (f r) l1).
    { rewrite <- Hr1. apply in_map. eapply nth_error_In. exact Hnth. }
    specialize (H1 _ Hin). apply Nat.ltb_lt in H1. exact H1.
Qed.


(** X1: [get_main_region] raises [ValueError] when the page has no region;
    otherwise it returns the index of a region with the greatest number of
    text lines, and every region before it has strictly fewer. *)
Theorem get_main_region_first_largest (regions : list TextRegion) :
  (regions = [] -> get_main_region regions = Raise ValueError) /\
  (regions <> [] ->
   exists i region,
     get_main_region regions = Ok i /\
     nth_error regions i = Some region /\
     (forall r, In r regions ->
                (List.length (text_lines r) <= List.length (text_lines region))%nat) /\
     (forall j r, (j < i)%nat -> nth_error regions j = Some r ->
                  (List.length (text_lines r) < List.length (text_lines region))%nat)).
Proof. apply get_main_region_cases. Qed.




(** X3: when the points of the main region have fewer than four tokens,
    [create_box] raises [IndexError], whether or not the region has text
    lines. *)
Theorem create_box_needs_four_corners (regions : list TextRegion) (i : nat)
        (region : TextRegion) :
  get_main_region regions = Ok i ->
  nth_error regions i = Some region ->
  (List.length (split (region_points region)) < 4)%nat ->
  MakeTrainingData.create_box regions = Raise IndexError.
Proof.
  intros Hmain Hreg Hlen. unfold MakeTrainingData.create_box, item.
  rewrite Hmain, Hreg. cbn [bind].
  destruct (split (region_points region)) as [|b0 rest] eqn:E; [reflexivity|].
  cbn [nth_error bind].
  pose proof (split_on_nonempty "," b0) as Hne. unfold get_coord.
  destruct (split_on "," b0) as [|f0 fs]; [congruence|]. cbn [nth_error bind].
  destruct rest as [|b1 [|b2 [|b3 rest]]]; simpl in Hlen; try reflexivity. lia.
Qed.

Lemma create_box_needs_four_corners_witness :
  MakeTrainingData.create_box [mkTextRegion "50,10 50,900 1000,900" []] = Raise IndexError.
Proof.
  apply (create_box_needs_four_corners
           [mkTextRegion "50,10 50,900 1000,900" []] 0%nat
           (mkTextRegion "50,10 50,900 1000,900" [])).
  - reflexivity.
  - reflexivity.
  - simpl. lia.
Defined.

(** ** Sorting, grouping and simplifying a page *)

Lemma sample_keys_distinct : NoDup (map fst sample_boxes).
Proof.
  repeat constructor; simpl; intros H;
    repeat (destruct H as [H|H]; [discriminate H|]); exact H.
Qed.


(** X4: on a dictionary of boxes, [vertical_sort] returns the same entries
    ordered by ascending line indicator, and the boxes of one indicator keep
    the order they had. *)
Theorem vertical_sort_orders (boxes : dict MakeTrainingData.box) :
  NoDup (map fst boxes) ->
  Permutation (MakeTrainingData.vertical_sort boxes) boxes /\
  StronglySorted (fun a b => MakeTrainingData.line_indicator (snd a)
                             <= MakeTrainingData.line_indicator (snd b))
                 (MakeTrainingData.vertical_sort boxes) /\
  forall v, cluster MakeTrainingData.line_indicator v (MakeTrainingData.vertical_sort boxes)
            = cluster MakeTrainingData.line_indicator v boxes.
Proof.
  intros Hnd. rewrite (vertical_sort_sorted_by boxes Hnd).
  split; [apply sorted_by_perm|]. split; [apply sorted_by_sorted|].
  intros v. unfold cluster.
  apply (sorted_by_same_key (fun x => MakeTrainingData.line_indicator (snd x))).
Qed.

Lemma vertical_sort_orders_witness :
  map fst (MakeTrainingData.vertical_sort sample_boxes)
  = ["box1"; "box3"; "box0"; "box2"]%string /\
  Permutation (MakeTrainingData.vertical_sort sample_boxes) sample_boxes.
Proof.
  split; [reflexivity|].
  apply (proj1 (vertical_sort_orders sample_boxes sample_keys_distinct)).
Defined.

(** X5: on a dictionary of boxes, [horizontal_sort] returns the clusters of
    equal line indicator one after the other, in the order in which the
    indicators first occur, each cluster ordered by ascending baseline start
    x; nothing is lost or duplicated, and no exception is raised. *)
Theorem horizontal_sort_orders_clusters (boxes : dict MakeTrainingData.box) :
  NoDup (map fst boxes) ->
  exists out,
    MakeTrainingData.horizontal_sort boxes = Ok out /\
    out = flat_map (ordered_cluster boxes) (indicators boxes) /\
    Permutation out boxes /\
    forall v,
      Permutation (ordered_cluster boxes v)
                  (cluster MakeTrainingData.line_indicator v boxes) /\
      StronglySorted (fun a b => MakeTrainingData.bl_start_x (snd a)
                                 <= MakeTrainingData.bl_start_x (snd b))
                     (ordered_cluster boxes v).
Proof.
  intros Hnd. eexists. split; [apply horizontal_sort_clusters; exact Hnd|].
  split; [reflexivity|]. split; [apply ordered_clusters_partition|].
  intros v. split; [apply sorted_by_perm | apply sorted_by_sorted].
Qed.

Lemma horizontal_sort_orders_clusters_witness :
  exists out,
    MakeTrainingData.horizontal_sort sample_boxes = Ok out /\
    map fst out = ["box2"; "box0"; "box3"; "box1"]%string /\
    Permutation out sample_boxes.
Proof.
  destruct (horizontal_sort_orders_clusters sample_boxes sample_keys_distinct)
    as (out & Hout & Heq & Hperm & _).
  exists out. split; [exact Hout|]. split; [rewrite Heq; reflexivity | exact Hperm].
Defined.

(** X6: [horizontal_sort] after [vertical_sort], as the driver chains them,
    puts the boxes of a page in reading order: ascending line indicator,
    and ascending baseline start x within one indicator. *)
Theorem sorted_page_reading_order (boxes : dict MakeTrainingData.box) :
  NoDup (map fst boxes) ->
  exists hs,
    MakeTrainingData.horizontal_sort (MakeTrainingData.vertical_sort boxes) = Ok hs /\
    Permutation hs boxes /\
    StronglySorted reading_order hs.
Proof. apply sorted_page. Qed.

Lemma sorted_page_reading_order_witness :
  exists hs,
    MakeTrainingData.horizontal_sort (MakeTrainingData.vertical_sort sample_boxes) = Ok hs /\
    map fst hs = ["box3"; "box1"; "box2"; "box0"]%string /\
    StronglySorted reading_order hs.
Proof.
  destruct (sorted_page_reading_order sample_boxes sample_keys_distinct)
    as (hs & Hhs & _ & Hro).
  exists hs. split; [exact Hhs|]. split; [|exact Hro].
  assert (E : Ok hs = MakeTrainingData.horizontal_sort
                        (MakeTrainingData.vertical_sort sample_boxes))
    by (symmetry; exact Hhs).
  vm_compute in E. injection E as ->. reflexivity.
Defined.











(** ** More on overlap removal *)

Lemma keep_where_distinct {A : Type} (want : bool) (flags : list bool) :
  forall l : list A, NoDup l -> NoDup (keep_where want flags l).
Proof.
  induction flags as [|f flags IH]; intros l Hnd; simpl; [constructor|].
  destruct l as [|x l]; [constructor|].
  inversion Hnd as [|? ? Hx Hnd']; subst.
  destruct (Bool.eqb f want); [|apply IH; exact Hnd'].
  constructor; [|apply IH; exact Hnd'].
  intros H. apply Hx. apply keep_where_in in H. exact H.
Qed.

Lemma spaced_keeps_all {A : Type} (ys : list Z) :
  StronglySorted (fun a b => a + 40 <= b) ys ->
  forall d : list A, List.length d = List.length ys ->
                     keep_where false (close_to_next ys) d = d.
Proof.
  induction 1 as [|y ys Hs IH Hall]; intros d Hlen.
  - destruct d; [reflexivity | discriminate Hlen].
  - destruct d as [|x d]; [discriminate Hlen|]. injection Hlen as Hlen.
    destruct ys as [|y' ys].
    + destruct d; [reflexivity | discriminate Hlen].
    + change (close_to_next (y :: y' :: ys))
        with ((y' - y <? 40) :: close_to_next (y' :: ys)).
      cbn [keep_where].
      inversion Hall as [|? ? Hy' _]; subst.
      destruct (Z.ltb_spec (y' - y) 40) as [Hlt|_]; [lia|].
      cbn [Bool.eqb]. f_equal. apply IH. exact Hlen.
Qed.

Lemma rm_overlap_twice (d : dict Line) (ys : list Z) :
  NoDup (map fst d) ->
  map (fun kv => reference_y (snd kv)) d = map Ok ys ->
  Sorted Z.le ys ->
  exists out,
    MakeTrainingData.rm_overlap d = Ok out /\
    MakeTrainingData.rm_overlap out = Ok out.
Proof.
  intros Hnd Hys Hsorted.
  assert (Hss : StronglySorted Z.le ys).
  { apply Sorted_StronglySorted; [|exact Hsorted]. intros a b c. apply Z.le_trans. }
  set (flags := close_to_next ys).
  exists (keep_where false flags d). split; [apply rm_overlap_keeps; assumption|].
  assert (Hys' : map (fun kv => reference_y (snd kv)) (keep_where false flags d)
                 = map Ok (keep_where false flags ys)).
  { rewrite keep_where_map, Hys, <- keep_where_map. reflexivity. }
  rewrite (rm_overlap_keeps _ (keep_where false flags ys)); [| |exact Hys'].
  - apply f_equal. apply spaced_keeps_all; [apply survivors_spaced; exact Hss|].
    apply (f_equal (@List.length _)) in Hys'. rewrite !length_map in Hys'. exact Hys'.
  - rewrite keep_where_map. apply keep_where_distinct. exact Hnd.
Qed.

(** X11: on lines given from the top of the page down (ascending reference
    y), one pass of [rm_overlap] is final: applied to its own result it
    returns that result unchanged. *)
Theorem rm_overlap_idempotent_on_ascending (d : dict Line) (ys : list Z) :
  NoDup (map fst d) ->
  map (fun kv => reference_y (snd kv)) d = map Ok ys ->
  Sorted Z.le ys ->
  exists out,
    MakeTrainingData.rm_overlap d = Ok out /\
    MakeTrainingData.rm_overlap out = Ok out.
Proof. apply rm_overlap_twice. Qed.

Lemma rm_overlap_idempotent_on_ascending_witness :
  exists out,
    MakeTrainingData.rm_overlap
      [("l0"%string, mkLine "0,525 9,525" "0,550 9,550 9,500 0,500");
       ("l1"%string, mkLine "0,555 9,555" "0,580 9,580 9,530 0,530");
       ("l2"%string, mkLine "0,655 9,655" "0,680 9,680 9,630 0,630")]
    = Ok out /\
    MakeTrainingData.rm_overlap out = Ok out.
Proof.
  apply (rm_overlap_idempotent_on_ascending
           [("l0"%string, mkLine "0,525 9,525" "0,550 9,550 9,500 0,500");
            ("l1"%string, mkLine "0,555 9,555" "0,580 9,580 9,530 0,530");
            ("l2"%string, mkLine "0,655 9,655" "0,680 9,680 9,630 0,630")]
           [500; 530; 630] NoDup_three_keys eq_refl).
  repeat constructor; lia.
Defined.

Lemma chain_collapses (d : dict Line) :
  forall ys : list Z,
    List.length ys = List.length d ->
    (forall i y y', nth_error ys i = Some y -> nth_error ys (S i) = Some y' -> y' - y < 40) ->
    forall kv front, d = front ++ [kv] ->
                     keep_where false (close_to_next ys) d = [kv].
Proof.
  induction d as [|x d IH]; intros ys Hlen Hclose kv front Hd.
  - destruct front; discriminate Hd.
  - destruct ys as [|y ys]; [discriminate Hlen|]. injection Hlen as Hlen.
    destruct d as [|x' d].
    + destruct ys; [|discriminate Hlen].
      destruct front as [|a [|b front]]; try discriminate Hd.
      injection Hd as ->. reflexivity.
    + destruct ys as [|y' ys]; [discriminate Hlen|].
      change (close_to_next (y :: y' :: ys))
        with ((y' - y <? 40) :: close_to_next (y' :: ys)).
      cbn [keep_where].
      pose proof (Hclose 0%nat y y' eq_refl eq_refl) as H0.
      destruct (Z.ltb_spec (y' - y) 40) as [_|Hge]; [|lia]. cbn [Bool.eqb].
      destruct front as [|a front]; [discriminate Hd|].
      injection Hd as _ Hd.
      apply (IH (y' :: ys) Hlen) with (front := front); [|exact Hd].
      intros i a1 a2 H1 H2. apply (Hclose (S i) a1 a2); assumption.
Qed.

(** X12: when every line is less than 40 above the next one, the removals
    cascade: [rm_overlap] keeps the last line only. *)
Theorem rm_overlap_chain_keeps_last (d front : dict Line) (kv : string * Line)
        (ys : list Z) :
  NoDup (map fst d) ->
  map (fun kv => reference_y (snd kv)) d = map Ok ys ->
  d = front ++ [kv] ->
  (forall i y y', nth_error ys i = Some y -> nth_error ys (S i) = Some y' -> y' - y < 40) ->
  MakeTrainingData.rm_overlap d = Ok [kv].
Proof.
  intros Hnd Hys Hd Hclose.
  rewrite (rm_overlap_keeps d ys Hnd Hys). apply f_equal.
  apply chain_collapses with (front := front); [|exact Hclose | exact Hd].
  apply (f_equal (@List.length _)) in Hys. rewrite !length_map in Hys.
  symmetry. exact Hys.
Qed.

Lemma rm_overlap_chain_keeps_last_witness :
  MakeTrainingData.rm_overlap
    [("l0"%string, mkLine "0,525 9,525" "0,550 9,550 9,500 0,500");
     ("l1"%string, mkLine "0,555 9,555" "0,580 9,580 9,530 0,530");
     ("l2"%string, mkLine "0,585 9,585" "0,610 9,610 9,560 0,560")]
  = Ok [("l2"%string, mkLine "0,585 9,585" "0,610 9,610 9,560 0,560")].
Proof.
  apply (rm_overlap_chain_keeps_last
           [("l0"%string, mkLine "0,525 9,525" "0,550 9,550 9,500 0,500");
            ("l1"%string, mkLine "0,555 9,555" "0,580 9,580 9,530 0,530");
            ("l2"%string, mkLine "0,585 9,585" "0,610 9,610 9,560 0,560")]
           [("l0"%string, mkLine "0,525 9,525" "0,550 9,550 9,500 0,500");
            ("l1"%string, mkLine "0,555 9,555" "0,580 9,580 9,530 0,530")]
           ("l2"%string, mkLine "0,585 9,585" "0,610 9,610 9,560 0,560")
           [500; 530; 560] NoDup_three_keys eq_refl eq_refl).
  intros [|[|[|i]]] y y' H1 H2; simpl in H1, H2;
    try discriminate; injection H1 as <-; injection H2 as <-; lia.
Defined.

Lemma last_item_ok {A : Type} (l : list A) : l <> [] -> exists x, last_item l = Ok x.
Proof. destruct l as [|a l]; [congruence|]. intros _. eexists. reflexivity. Qed.

Lemma get_start_y_total (poly : string) :
  exists s, MakeTrainingData.get_start_y poly = Ok s.
Proof.
  unfold MakeTrainingData.get_start_y.
  destruct (last_item_ok _ (split_on_nonempty " " poly)) as (c & Hc).
  rewrite Hc. cbn [bind]. apply last_item_ok. apply split_on_nonempty.
Qed.

Lemma int_cases (s : string) : (exists n, Py.int s = Ok n) \/ Py.int s = Raise ValueError.
Proof.
  unfold Py.int.
  match goal with
  | |- context [match ?p with Some _ => _ | None => _ end] => destruct p
  end; [left; eexists; reflexivity | right; reflexivity].
Qed.

Lemma reference_y_cases (line : Line) :
  (exists y, reference_y line = Ok y) \/ reference_y line = Raise ValueError.
Proof.
  unfold reference_y. destruct (get_start_y_total (poly_coord line)) as (s & Hs).
  rewrite Hs. cbn [bind]. apply int_cases.
Qed.

Lemma scan_step_unreadable (st : MakeTrainingData.overlap_state) (i : nat)
      (key pk : string) (box prev_box : Line) :
  MakeTrainingData.prev_key st = Some pk ->
  getitem (MakeTrainingData.sim_box st) pk = Ok prev_box ->
  reference_y prev_box = Raise ValueError \/ reference_y box = Raise ValueError ->
  MakeTrainingData.scan_step st (S i, (key, box)) = Raise ValueError.
Proof.
  intros Hpk Hget Hbad. unfold MakeTrainingData.scan_step.
  cbn [Nat.eqb]. rewrite Hpk, Hget. cbn [bind].
  unfold reference_y in Hbad.
  destruct (get_start_y_total (poly_coord prev_box)) as (ps & Hps).
  destruct (get_start_y_total (poly_coord box)) as (cs & Hcs).
  rewrite Hps, Hcs in *. cbn [bind] in *.
  destruct (int_cases ps) as [(py & Hpy)|Hpy]; rewrite Hpy in *; cbn [bind];
    [|reflexivity].
  destruct Hbad as [Hbad|Hbad]; [discriminate Hbad|].
  rewrite Hbad. reflexivity.
Qed.

Lemma scan_loop_unreadable (d : dict Line) (rest : dict Line) :
  forall (i : nat) (acc : list string) (pk : string) (pl : Line),
    getitem d pk = Ok pl ->
    (forall kv, In kv rest -> getitem d (fst kv) = Ok (snd kv)) ->
    rest <> [] ->
    (reference_y pl = Raise ValueError \/
     exists kv, In kv rest /\ reference_y (snd kv) = Raise ValueError) ->
    for_each MakeTrainingData.scan_step (enumerate_from (S i) rest)
             {| MakeTrainingData.sim_box := d;
                MakeTrainingData.rm_key := acc;
                MakeTrainingData.prev_key := Some pk |}
    = Raise ValueError.
Proof.
  induction rest as [|[k l] rest IH]; intros i acc pk pl Hget Hall Hne Hbad;
    [congruence|].
  cbn [enumerate_from for_each].
  destruct (reference_y_cases pl) as [(py & Hpy)|Hpy];
    [|erewrite scan_step_unreadable;
      [reflexivity | reflexivity | exact Hget | left; exact Hpy]].
  destruct (reference_y_cases l) as [(y & Hy)|Hy];
    [|erewrite scan_step_unreadable;
      [reflexivity | reflexivity | exact Hget | right; exact Hy]].
  erewrite scan_step_next; [|reflexivity | exact Hget | exact Hpy | exact Hy].
  cbn [bind MakeTrainingData.sim_box MakeTrainingData.rm_key].
  assert (Hrest : exists kv, In kv rest /\ reference_y (snd kv) = Raise ValueError).
  { destruct Hbad as [Hbad|(kv & [<-|Hin] & Hkv)].
    - rewrite Hpy in Hbad. discriminate Hbad.
    - cbn [snd] in Hkv. rewrite Hy in Hkv. discriminate Hkv.
    - exists kv. split; assumption. }
  apply IH with (pl := l).
  - apply (Hall (k, l)). left. reflexivity.
  - intros kv Hin. apply Hall. right. exact Hin.
  - destruct Hrest as (kv & Hin & _). intros E. rewrite E in Hin. exact Hin.
  - right. exact Hrest.
Qed.

(** X13: [rm_overlap] reads no polygon when it is given fewer than two
    lines and returns them as they are; given two lines or more, one of
    which has a last polygon vertex whose y is not an integer, it raises
    [ValueError] and removes nothing. *)
Theorem rm_overlap_unreadable_line (d : dict Line) :
  NoDup (map fst d) ->
  ((List.length d <= 1)%nat -> MakeTrainingData.rm_overlap d = Ok d) /\
  ((2 <= List.length d)%nat ->
   (exists kv, In kv d /\ forall y, reference_y (snd kv) <> Ok y) ->
   MakeTrainingData.rm_overlap d = Raise ValueError).
Proof.
  intros Hnd. split.
  - intros Hlen. destruct d as [|[k l] [|kv d]]; [reflexivity | reflexivity|].
    simpl in Hlen. lia.
  - intros Hlen (kv & Hin & Hkv).
    assert (Hbad : reference_y (snd kv) = Raise ValueError).
    { destruct (reference_y_cases (snd kv)) as [(y & Hy)|H]; [|exact H].
      exfalso. exact (Hkv y Hy). }
    destruct d as [|[k l] rest]; [contradiction|].
    unfold MakeTrainingData.rm_overlap, MakeTrainingData.scan, enumerate.
    cbn [enumerate_from for_each MakeTrainingData.scan_step Nat.eqb bind].
    cbn [MakeTrainingData.sim_box MakeTrainingData.rm_key].
    rewrite (scan_loop_unreadable ((k, l) :: rest) rest 0 [] k l); [reflexivity | | | |].
    + apply getitem_in; [exact Hnd | left; reflexivity].
    + intros [k' l'] Hin'. apply getitem_in; [exact Hnd | right; exact Hin'].
    + destruct rest; [simpl in Hlen; lia | discriminate].
    + destruct Hin as [<-|Hin]; [left; exact Hbad|].
      right. exists kv. split; assumption.
Qed.

Lemma rm_overlap_unreadable_line_witness :
  MakeTrainingData.rm_overlap [("l0"%string, mkLine "" "no polygon")]
  = Ok [("l0"%string, mkLine "" "no polygon")] /\
  MakeTrainingData.rm_overlap
    [("l0"%string, mkLine "0,525 9,525" "0,550 9,550 9,500 0,500");
     ("l1"%string, mkLine "0,555 9,555" "0,580 9,580 9,530 0,5x0");
     ("l2"%string, mkLine "0,655 9,655" "0,680 9,680 9,630 0,630")]
  = Raise ValueError.
Proof.
  split.
  - apply (proj1 (rm_overlap_unreadable_line [("l0"%string, mkLine "" "no polygon")]
                    ltac:(repeat constructor; simpl; tauto))).
    simpl. lia.
  - apply (proj2 (rm_overlap_unreadable_line
                    [("l0"%string, mkLine "0,525 9,525" "0,550 9,550 9,500 0,500");
                     ("l1"%string, mkLine "0,555 9,555" "0,580 9,580 9,530 0,5x0");
                     ("l2"%string, mkLine "0,655 9,655" "0,680 9,680 9,630 0,630")]
                    NoDup_three_keys)).
    + simpl. lia.
    + exists ("l1"%string, mkLine "0,555 9,555" "0,580 9,580 9,530 0,5x0").
      split; [right; left; reflexivity|]. intros y H. discriminate H.
Defined.

(** ** Reading coordinates back, and the exceptions of the extractor *)

Lemma collect_ys_xy (pts : list (Z * Z)) :
  collect_ys (map (fun p => xy (fst p) (snd p)) pts) = Ok (map snd pts).
Proof.
  unfold collect_ys.
  enough (H : forall acc,
             for_each (fun ys coord =>
                         let point := get_coord coord in
                         p1 <- item point 1 ;;
                         y <- Py.int p1 ;;
                         Ok (ys ++ [y]))
                      (map (fun p => xy (fst p) (snd p)) pts) acc
             = Ok (acc ++ map snd pts)) by apply (H []).
  induction pts as [|[x y] pts IH]; intros acc; simpl.
  - rewrite app_nil_r. reflexivity.
  - unfold get_coord. rewrite split_xy. cbn [item nth_error bind].
    rewrite int_str. cbn [bind]. rewrite IH, <- app_assoc. reflexivity.
Qed.

(** X14: coordinate tokens printed the way [line_simplification] prints
    them (["x,y"] from two integers) are read back exactly: [get_poly_coord]
    returns the points, and [get_y_avg] the mean of their ys. *)
Theorem printed_points_read_back (pts : list (Z * Z)) :
  get_poly_coord (map (fun p => xy (fst p) (snd p)) pts) = Ok pts /\
  get_y_avg (map (fun p => xy (fst p) (snd p)) pts) = mean (map snd pts).
Proof.
  split; [apply get_poly_coord_xy|].
  unfold get_y_avg. rewrite collect_ys_xy. reflexivity.
Qed.














(** ** The average height of a polygon with an odd number of vertices *)

Lemma fold_left_agree {A B : Type} (f g : A -> B -> A) (l : list B) :
  (forall a x, In x l -> f a x = g a x) ->
  forall a, fold_left f l a = fold_left g l a.
Proof.
  induction l as [|x l IH]; intros H a; simpl; [reflexivity|].
  rewrite (H a x) by (left; reflexivity). apply IH.
  intros a' y Hy. apply H. right. exact Hy.
Qed.

Lemma paired_differences_middle (l r : list (Z * Z)) (m : Z * Z) :
  List.length l = List.length r ->
  paired_differences (l ++ m :: r) = paired_differences (l ++ r).
Proof.
  intros Hlen. unfold paired_differences.
  rewrite !length_app. cbn [List.length]. rewrite <- Hlen.
  replace ((List.length l + S (List.length l)) / 2)%nat with (List.length l)
    by (apply Nat.div_unique with (r := 1%nat); lia).
  replace ((List.length l + List.length l) / 2)%nat with (List.length l)
    by (apply Nat.div_unique with (r := 0%nat); lia).
  apply fold_left_agree. intros a i Hi. apply in_seq in Hi.
  rewrite (app_nth1 l (m :: r) (0, 0)) by lia.
  rewrite (app_nth1 l r (0, 0)) by lia.
  rewrite (app_nth2 l (m :: r) (0, 0)) by lia.
  rewrite (app_nth2 l r (0, 0)) by lia.
  replace (List.length l + S (List.length l) - 1 - i - List.length l)%nat
    with (S (List.length l - 1 - i)) by lia.
  replace (List.length l + List.length l - 1 - i - List.length l)%nat
    with (List.length l - 1 - i)%nat by lia.
  reflexivity.
Qed.

(** X16: in a polygon with an odd number of vertices the middle vertex
    plays no part in the average height: with as many vertices before it as
    after it, [get_avg_height] returns (or raises) the same with and without
    it. *)
Theorem get_avg_height_ignores_middle (l r : list (Z * Z)) (m : Z * Z) :
  List.length l = List.length r ->
  get_avg_height (l ++ m :: r) = get_avg_height (l ++ r).
Proof.
  intros Hlen.
  destruct (le_lt_dec 1 (List.length l)) as [Hge|Hlt].
  - rewrite (proj2 (get_avg_height_cases (l ++ m :: r)))
      by (rewrite length_app; simpl; lia).
    rewrite (proj2 (get_avg_height_cases (l ++ r))) by (rewrite length_app; lia).
    rewrite (paired_differences_middle l r m Hlen).
    rewrite !length_app. cbn [List.length]. rewrite <- Hlen.
    replace ((List.length l + S (List.length l)) / 2)%nat with (List.length l)
      by (apply Nat.div_unique with (r := 1%nat); lia).
    replace ((List.length l + List.length l) / 2)%nat with (List.length l)
      by (apply Nat.div_unique with (r := 0%nat); lia).
    reflexivity.
  - destruct l; [|simpl in Hlt; lia]. destruct r; [reflexivity | discriminate Hlen].
Qed.

Lemma get_avg_height_ignores_middle_witness :
  get_avg_height [(100, 520); (900, 521); (950, 0); (900, 480); (100, 479)]
  = get_avg_height [(100, 520); (900, 521); (900, 480); (100, 479)].
Proof.
  apply (get_avg_height_ignores_middle
           [(100, 520); (900, 521)] [(900, 480); (100, 479)] (950, 0)).
  reflexivity.
Defined.

(** ** What [create_box] of the sibling script returns *)






(** ** The region written to the head of the page *)

(** X18: [get_region_coord], which [get_head] calls on the page
    [create_box] has read, raises [ValueError] on a page without regions,
    where [create_box] returns the empty dict; on any other page it returns
    the points of the region [create_box] takes its lines from, and the
    borders of every box are the x of the first and of the fourth corner
    of those points. *)
Theorem get_region_coord_of_main_region (regions : list TextRegion) :
  (regions = [] ->
   MakeTrainingData.create_box regions = Ok [] /\
   MakeTrainingData.get_region_coord regions = Raise ValueError) /\
  (regions <> [] ->
   exists i region,
     get_main_region regions = Ok i /\
     nth_error regions i = Some region /\
     MakeTrainingData.get_region_coord regions = Ok (region_points region) /\
     forall boxes kb,
       MakeTrainingData.create_box regions = Ok boxes -> In kb boxes ->
       corner_x (region_points region) 0 = Ok (MakeTrainingData.left_border (snd kb)) /\
       corner_x (region_points region) 3 = Ok (MakeTrainingData.right_border (snd kb))).
Proof.
  split; [intros ->; split; reflexivity|]. intros Hne.
  destruct (proj2 (get_main_region_cases regions) Hne) as (i & region & Hmain & Hnth & _).
  exists i, region. split; [exact Hmain|]. split; [exact Hnth|].
  assert (Hitem : item regions i = Ok region) by (unfold item; rewrite Hnth; reflexivity).
  split.
  - unfold MakeTrainingData.get_region_coord. rewrite Hmain. cbn [bind].
    rewrite Hitem. reflexivity.
  - intros boxes kb H Hin. unfold MakeTrainingData.create_box in H.
    rewrite Hmain in H. rewrite Hitem in H. cbn [bind] in H.
    apply bind_ok_inv in H. destruct H as (b0 & Hb0 & H).
    apply bind_ok_inv in H. destruct H as (lb & Hlb & H).
    apply bind_ok_inv in H. destruct H as (b3 & Hb3 & H).
    apply bind_ok_inv in H. destruct H as (rb & Hrb & H).
    destruct (create_box_loop _ _ _ _ _ _ H) as (new & -> & _ & Hnew).
    destruct (Hnew kb Hin) as (Hl & Hr & _).
    unfold corner_x. rewrite Hb0, Hb3. cbn [bind]. rewrite Hlb, Hrb. cbn [bind].
    split; [exact Hl | exact Hr].
Qed.

Lemma get_region_coord_of_main_region_witness :
  MakeTrainingData.get_region_coord
    [mkTextRegion "0,0 0,9 9,9 9,0" [];
     mkTextRegion "50,10 50,900 1000,900 1000,10"
       [mkTextLine "100,520 900,520 900,480 100,480" "100,500 900,502"]]
  = Ok "50,10 50,900 1000,900 1000,10"%string.
Proof.
  destruct (proj2 (get_region_coord_of_main_region
                     [mkTextRegion "0,0 0,9 9,9 9,0" [];
                      mkTextRegion "50,10 50,900 1000,900 1000,10"
                        [mkTextLine "100,520 900,520 900,480 100,480" "100,500 900,502"]]))
    as (i & region & Hmain & Hnth & Hcoord & _); [discriminate|].
  injection Hmain as <-. injection Hnth as <-. exact Hcoord.
Defined.

(** ** Transcripts *)

Lemma splitlines_cons (c : N) (s : text) :
  splitlines (c :: s) =
  if is_linebreak c then
    [] :: match s with
          | d :: s'' => if ((c =? 13) && (d =? 10))%N then splitlines s'' else splitlines s
          | [] => []
          end
  else match splitlines s with
       | w :: ws => (c :: w) :: ws
       | [] => [[c]]
       end.
Proof. destruct s; reflexivity. Qed.

Lemma get_transcript_filter (t : text) :
  MakeTrainingData.get_transcript t = filter nonempty (splitlines t).
Proof.
  unfold MakeTrainingData.get_transcript.
  assert (H : forall (l acc : list text),
             fold_left (fun result line =>
                          match line with
                          | [] => result
                          | _ :: _ => result ++ [line]
                          end) l acc
             = acc ++ filter nonempty l).
  { induction l as [|x l IH]; intros acc.
    - simpl. rewrite app_nil_r. reflexivity.
    - cbn [fold_left filter]. rewrite IH.
      destruct x; cbn [nonempty]; [reflexivity | rewrite <- app_assoc; reflexivity]. }
  apply H.
Qed.

(** The lines after a boundary, the empty ones apart, are those of the rest
    of the text: CR LF gives what CR alone and LF alone give. *)
Lemma splitlines_after_break (c : N) (s : text) :
  is_linebreak c = true ->
  exists rest,
    splitlines (c :: s) = [] :: rest /\
    filter nonempty rest = filter nonempty (splitlines s).
Proof.
  intros Hc. rewrite splitlines_cons, Hc. eexists. split; [reflexivity|].
  destruct s as [|d s]; [reflexivity|].
  destruct ((c =? 13) && (d =? 10))%N eqn:E; [|reflexivity].
  apply andb_true_iff in E. destruct E as [_ Ed]. apply N.eqb_eq in Ed. subst d.
  rewrite (splitlines_cons 10 s). change (is_linebreak 10) with true.
  cbn [filter nonempty]. destruct s; reflexivity.
Qed.

Lemma splitlines_first_line (l : text) (c : N) (s : text) :
  unbroken l -> is_linebreak c = true ->
  exists rest,
    splitlines (l ++ c :: s) = l :: rest /\
    filter nonempty rest = filter nonempty (splitlines s).
Proof.
  intros Hl Hc. induction Hl as [|x l Hx Hl IH].
  - exact (splitlines_after_break c s Hc).
  - destruct IH as (rest & E & Hrest). exists rest. split; [|exact Hrest].
    cbn [app]. rewrite splitlines_cons, Hx, E. reflexivity.
Qed.

Lemma splitlines_one_line (l : text) :
  unbroken l -> l <> [] -> splitlines l = [l].
Proof.
  intros Hl. induction Hl as [|x l Hx Hl IH]; intros Hne; [congruence|].
  rewrite splitlines_cons, Hx. destruct l as [|y l]; [reflexivity|].
  rewrite IH by discriminate. reflexivity.
Qed.

Lemma get_transcript_one_line (l : text) :
  unbroken l -> MakeTrainingData.get_transcript l = filter nonempty [l].
Proof.
  intros Hl. rewrite get_transcript_filter. destruct l as [|x l]; [reflexivity|].
  rewrite splitlines_one_line by (exact Hl || discriminate). reflexivity.
Qed.

Lemma get_transcript_first_line (l : text) (c : N) (s : text) :
  unbroken l -> is_linebreak c = true ->
  MakeTrainingData.get_transcript (l ++ c :: s)
  = filter nonempty [l] ++ MakeTrainingData.get_transcript s.
Proof.
  intros Hl Hc. rewrite !get_transcript_filter.
  destruct (splitlines_first_line l c s Hl Hc) as (rest & -> & <-).
  cbn [filter]. destruct (nonempty l); reflexivity.
Qed.

(** A text is an unbroken line, or an unbroken line, a boundary and a
    text. *)
Lemma text_break_ind (P : text -> Prop) :
  (forall l, unbroken l -> P l) ->
  (forall l c rest, unbroken l -> is_linebreak c = true -> P rest -> P (l ++ c :: rest)) ->
  forall t, P t.
Proof.
  intros Hbase Hstep t.
  assert (H : forall l, unbroken l -> P (l ++ t)).
  { induction t as [|x t IH]; intros l Hl.
    - rewrite app_nil_r. apply Hbase. exact Hl.
    - destruct (is_linebreak x) eqn:Hx.
      + apply Hstep; [exact Hl | exact Hx |]. apply (IH []). constructor.
      + replace (l ++ x :: t) with ((l ++ [x]) ++ t)
          by (rewrite <- app_assoc; reflexivity).
        apply IH. apply Forall_app. split; [exact Hl|]. constructor; [exact Hx | constructor]. }
  apply (H []). constructor.
Qed.

Lemma filter_nonempty_clean (l : text) :
  unbroken l -> Forall clean_line (filter nonempty [l]).
Proof.
  intros Hl. destruct l as [|x l]; cbn [filter nonempty]; constructor; [|constructor].
  split; [discriminate | exact Hl].
Qed.

Lemma concat_filter_nonempty (l : text) : List.concat (filter nonempty [l]) = l.
Proof. destruct l; [reflexivity|]. cbn [filter nonempty List.concat]. apply app_nil_r. Qed.

Lemma filter_unbroken (l : text) :
  unbroken l -> filter (fun c => negb (is_linebreak c)) l = l.
Proof.
  intros Hl. induction Hl as [|x l Hx Hl IH]; [reflexivity|].
  cbn [filter]. rewrite Hx, IH. reflexivity.
Qed.

(** A boundary in the text ends the lines before it: the lines of the
    whole are those of what comes before followed by those of what comes
    after. *)
Lemma get_transcript_break (a : text) (c : N) (s : text) :
  is_linebreak c = true ->
  MakeTrainingData.get_transcript (a ++ c :: s)
  = MakeTrainingData.get_transcript a ++ MakeTrainingData.get_transcript s.
Proof.
  intros Hc. revert a. apply text_break_ind.
  - intros l Hl.
    rewrite (get_transcript_first_line l c s Hl Hc), (get_transcript_one_line l Hl).
    reflexivity.
  - intros l c' rest Hl Hc' IH. rewrite <- app_assoc. cbn [app].
    rewrite (get_transcript_first_line l c' (rest ++ c :: s) Hl Hc').
    rewrite (get_transcript_first_line l c' rest Hl Hc').
    rewrite IH, app_assoc. reflexivity.
Qed.

(** X19: every line [get_transcript] returns is non-empty and holds no
    line boundary, and the lines put end to end are the text without its
    line boundaries: nothing else is dropped or reordered, whichever of the
    boundaries [splitlines] knows (CR LF among them) separate the lines. *)
Theorem get_transcript_lines (t : text) :
  Forall clean_line (MakeTrainingData.get_transcript t) /\
  List.concat (MakeTrainingData.get_transcript t) = filter (fun c => negb (is_linebreak c)) t.
Proof.
  revert t. apply text_break_ind.
  - intros l Hl. rewrite (get_transcript_one_line l Hl). split.
    + apply filter_nonempty_clean. exact Hl.
    + rewrite concat_filter_nonempty, (filter_unbroken l Hl). reflexivity.
  - intros l c rest Hl Hc [IH1 IH2].
    rewrite (get_transcript_first_line l c rest Hl Hc). split.
    + apply Forall_app. split; [apply filter_nonempty_clean; exact Hl | exact IH1].
    + rewrite concat_app, concat_filter_nonempty, IH2, filter_app.
      rewrite (filter_unbroken l Hl). cbn [filter]. rewrite Hc. reflexivity.
Qed.

(** X20: lines that are non-empty and hold no line boundary are read back
    as they are, from their join with line feeds and from the text
    [serialize_change] builds by ending each of them with a line feed. *)
Theorem get_transcript_reads_back (lines : list text) :
  Forall clean_line lines ->
  MakeTrainingData.get_transcript (join [10%N] lines) = lines /\
  MakeTrainingData.get_transcript (List.concat (map (fun l => l ++ [10%N]) lines)) = lines.
Proof.
  intros H. induction H as [|l lines [Hne Hl] H [IH1 IH2]]; [split; reflexivity|].
  assert (E : filter nonempty [l] = [l]) by (destruct l; [congruence | reflexivity]).
  split.
  - destruct lines as [|l2 lines].
    + cbn [join]. rewrite (get_transcript_one_line l Hl). exact E.
    + change (join [10%N] (l :: l2 :: lines)) with (l ++ 10%N :: join [10%N] (l2 :: lines)).
      rewrite (get_transcript_first_line l 10 _ Hl eq_refl).
      rewrite E, IH1. reflexivity.
  - cbn [map List.concat]. rewrite <- app_assoc. cbn [app].
    rewrite (get_transcript_first_line l 10 _ Hl eq_refl).
    rewrite E, IH2. reflexivity.
Qed.

Lemma get_transcript_reads_back_witness :
  MakeTrainingData.get_transcript (join [10%N] [[3904; 3851]; [3906]; [3908; 3851]]%N)
  = [[3904; 3851]; [3906]; [3908; 3851]]%N.
Proof.
  apply (get_transcript_reads_back [[3904; 3851]; [3906]; [3908; 3851]]%N).
  repeat constructor; discriminate.
Defined.

(** ** The pages of a transcript *)

Lemma list_ind2 {A : Type} (P : list A -> Prop) :
  P [] -> (forall a, P [a]) ->
  (forall a b l, P l -> P (b :: l) -> P (a :: b :: l)) ->
  forall l, P l.
Proof.
  intros H0 H1 H2 l.
  assert (H : P l /\ forall a, P (a :: l)).
  { induction l as [|b l [IH1 IH2]].
    - split; [exact H0 | exact H1].
    - split; [apply IH2 | intros a; apply H2; [exact IH1 | apply IH2]]. }
  apply H.
Qed.

Lemma split_on2_cons2 (a b c d : N) (l : text) :
  split_on2 a b (c :: d :: l) =
  if ((c =? a) && (d =? b))%N then [] :: split_on2 a b l
  else match split_on2 a b (d :: l) with
       | w :: ws => (c :: w) :: ws
       | [] => [[c]]
       end.
Proof. reflexivity. Qed.

Lemma split_on2_nonempty (a b : N) (t : text) : split_on2 a b t <> [].
Proof.
  induction t as [| |c d l _ IH] using list_ind2; try discriminate.
  rewrite split_on2_cons2. destruct ((c =? a) && (d =? b))%N; [discriminate|].
  destruct (split_on2 a b (d :: l)); discriminate.
Qed.

Lemma join_cons_char (sep : text) (c : N) (w : text) (ws : list text) :
  join sep ((c :: w) :: ws) = c :: join sep (w :: ws).
Proof. destruct ws; reflexivity. Qed.

Lemma join_split_on2 (a b : N) (t : text) : join [a; b] (split_on2 a b t) = t.
Proof.
  induction t as [| |c d l IH1 IH2] using list_ind2; try reflexivity.
  rewrite split_on2_cons2. destruct ((c =? a) && (d =? b))%N eqn:E.
  - apply andb_true_iff in E. destruct E as [Ec Ed].
    apply N.eqb_eq in Ec. apply N.eqb_eq in Ed. subst c d.
    pose proof (split_on2_nonempty a b l) as Hne.
    destruct (split_on2 a b l) as [|w ws]; [congruence|].
    change (join [a; b] ([] :: w :: ws)) with (a :: b :: join [a; b] (w :: ws)).
    rewrite IH1. reflexivity.
  - pose proof (split_on2_nonempty a b (d :: l)) as Hne.
    destruct (split_on2 a b (d :: l)) as [|w ws]; [congruence|].
    rewrite join_cons_char, IH2. reflexivity.
Qed.

(** The first page of a text starts as the text does, unless it is
    empty. *)
Lemma split_on2_first (a b d : N) (l : text) :
  exists w ws, split_on2 a b (d :: l) = w :: ws /\ (w = [] \/ exists w', w = d :: w').
Proof.
  destruct l as [|e l]; [exists [d], []; split; [reflexivity | right; eauto]|].
  rewrite split_on2_cons2. destruct ((d =? a) && (e =? b))%N.
  - eexists _, _. split; [reflexivity | left; reflexivity].
  - pose proof (split_on2_nonempty a b (e :: l)) as Hne.
    destruct (split_on2 a b (e :: l)) as [|w ws]; [congruence|].
    eexists _, _. split; [reflexivity | right; eauto].
Qed.

Lemma has_blank_line_cons (c d : N) (t : text) :
  has_blank_line (c :: d :: t) = ((c =? 10) && (d =? 10))%N || has_blank_line (d :: t).
Proof. reflexivity. Qed.

Lemma pages_hold_no_blank_line (t : text) :
  Forall (fun page => has_blank_line page = false) (split_on2 10 10 t).
Proof.
  induction t as [| |c d l IH1 IH2] using list_ind2.
  - repeat constructor.
  - repeat constructor.
  - rewrite split_on2_cons2. destruct ((c =? 10) && (d =? 10))%N eqn:E.
    + constructor; [reflexivity | exact IH1].
    + destruct (split_on2_first 10 10 d l) as (w & ws & Hw & Hfirst).
      rewrite Hw in IH2 |- *. inversion IH2 as [|? ? Hhead Htail]; subst.
      constructor; [|exact Htail].
      destruct Hfirst as [->|(w' & ->)]; [reflexivity|].
      rewrite has_blank_line_cons, E. exact Hhead.
Qed.

Lemma get_transcript_join_pages (pages : list text) :
  MakeTrainingData.get_transcript (join [10; 10]%N pages)
  = flat_map MakeTrainingData.get_transcript pages.
Proof.
  induction pages as [|p pages IH]; [reflexivity|].
  destruct pages as [|q pages].
  - cbn [join flat_map]. rewrite app_nil_r. reflexivity.
  - change (join [10; 10]%N (p :: q :: pages))
      with (p ++ 10%N :: ([] ++ 10%N :: join [10; 10]%N (q :: pages))).
    rewrite !get_transcript_break by reflexivity.
    rewrite IH. reflexivity.
Qed.

(** X21: [get_transcript_list] cuts the transcript at its blank lines and
    nowhere else: it returns at least one page, no page holds two line feeds
    in a row, and the pages joined with two line feeds are the transcript
    again.  The lines [get_transcript] reads from the pages, taken in order,
    are the lines it reads from the whole transcript. *)
Theorem get_transcript_list_pages (t : text) :
  MakeTrainingData.get_transcript_list t <> [] /\
  Forall (fun page => has_blank_line page = false) (MakeTrainingData.get_transcript_list t) /\
  join [10; 10]%N (MakeTrainingData.get_transcript_list t) = t /\
  flat_map MakeTrainingData.get_transcript (MakeTrainingData.get_transcript_list t)
  = MakeTrainingData.get_transcript t.
Proof.
  unfold MakeTrainingData.get_transcript_list.
  split; [apply split_on2_nonempty|].
  split; [apply pages_hold_no_blank_line|].
  split; [apply join_split_on2|].
  rewrite <- get_transcript_join_pages, join_split_on2. reflexivity.
Qed.
